(** * The read model of the video-sharing backend

    A shallow embedding of the request handlers of the dashboard controller
    ([getChannelStats], [getChannelVideos]), of the user controller
    ([getUserChannelProfile], [getWatchHistory]) and of [asyncHandler], over a
    small model of the document store they query: BSON-like documents,
    Mongoose query filters and the aggregation stages the handlers use. *)

From Stdlib Require Import List String Ascii Bool ZArith NArith Lia.
Import ListNotations.
Local Open Scope string_scope.
Local Open Scope list_scope.
Local Open Scope Z_scope.

Set Implicit Arguments.
Set Warnings "-register-all".

(** ** Values and documents *)

(** An ObjectId is a 12-byte value; it is kept as the number it encodes. *)
Definition ObjectId := N.
Bind Scope N_scope with ObjectId.

(** The values that travel between the handlers and the store.  Counters and
    counts are integers throughout this code, so numbers are in [Z]. *)
Inductive value : Type :=
| VUndefined
| VNull
| VBool (b : bool)
| VNum (n : Z)
| VStr (s : string)
| VId (o : ObjectId)
| VDate (t : Z)
| VArr (l : list value)
| VDoc (d : list (string * value)).

(** A document is an ordered list of fields, as BSON has it. *)
Definition doc := list (string * value).

Fixpoint value_eqb (a b : value) {struct a} : bool :=
  match a, b with
  | VUndefined, VUndefined => true
  | VNull, VNull => true
  | VBool x, VBool y => Bool.eqb x y
  | VNum x, VNum y => Z.eqb x y
  | VStr x, VStr y => String.eqb x y
  | VId x, VId y => N.eqb x y
  | VDate x, VDate y => Z.eqb x y
  | VArr l1, VArr l2 =>
      (fix go (l1 l2 : list value) {struct l1} : bool :=
         match l1, l2 with
         | [], [] => true
         | x :: xs, y :: ys => value_eqb x y && go xs ys
         | _, _ => false
         end) l1 l2
  | VDoc d1, VDoc d2 =>
      (fix go (d1 d2 : list (string * value)) {struct d1} : bool :=
         match d1, d2 with
         | [], [] => true
         | (k, x) :: xs, (k', y) :: ys =>
             String.eqb k k' && value_eqb x y && go xs ys
         | _, _ => false
         end) d1 d2
  | _, _ => false
  end.

(** Field access: [None] is a missing field. *)
Fixpoint get (k : string) (d : doc) : option value :=
  match d with
  | [] => None
  | (k', v) :: d' => if String.eqb k k' then Some v else get k d'
  end.

Fixpoint remove (k : string) (d : doc) : doc :=
  match d with
  | [] => []
  | (k', v) :: d' =>
      if String.eqb k k' then remove k d' else (k', v) :: remove k d'
  end.

(** Writing a field keeps its place when the field exists and appends it
    otherwise. *)
Fixpoint set (k : string) (v : value) (d : doc) : doc :=
  match d with
  | [] => [(k, v)]
  | (k', v') :: d' =>
      if String.eqb k k' then (k, v) :: d' else (k', v') :: set k v d'
  end.

Definition keys (d : doc) : list string := map fst d.

Definition has_key (k : string) (d : doc) : bool :=
  match get k d with Some _ => true | None => false end.

(** JavaScript truthiness, the [||] operator and array indexing. *)
Definition truthy (v : value) : bool :=
  match v with
  | VUndefined | VNull => false
  | VBool b => b
  | VNum n => negb (n =? 0)
  | VStr s => negb (String.eqb s "")
  | _ => true
  end.

Definition js_or (a b : value) : value := if truthy a then a else b.

(** [xs[0]?.k]: undefined when the array is empty or the field is missing. *)
Definition first_field (xs : list doc) (k : string) : value :=
  match xs with
  | [] => VUndefined
  | d :: _ => match get k d with Some v => v | None => VUndefined end
  end.

(** ** What the handlers take from the language runtime and from Mongoose

    These functions are not code of the repository.  The handlers are
    embedded over any implementation of them; [strictQuery] is Mongoose's
    option of that name, whose default differs between major versions. *)
Class Library : Type := {
  trim : string -> string;            (* String.prototype.trim *)
  toLowerCase : string -> string;     (* String.prototype.toLowerCase *)
  isValidObjectId : value -> bool;    (* mongoose.isValidObjectId *)
  parseObjectId : value -> ObjectId;  (* the ObjectId constructor on an
                                         argument that is not an ObjectId *)
  strictQuery : bool
}.

(** [new mongoose.Types.ObjectId(v)]: an ObjectId is copied.  The dashboard
    controller calls the constructor without [new]; the call is embedded as
    the same construction. *)
Definition newObjectId `{Library} (v : value) : ObjectId :=
  match v with
  | VId o => o
  | _ => parseObjectId v
  end.

(** ** The store *)

(** Modelled from the spec: the User schema (user.model.js is not part of the
    sources); the fields are those of the data model, which are also the ones
    the user controller reads and writes. *)
Record UserRecord : Type := {
  user_id : ObjectId;
  user_username : string;
  user_email : string;
  user_fullName : string;
  user_password : string;
  user_avatar : string;
  user_coverImage : option string;
  user_refreshToken : option string;
  user_watchHistory : list ObjectId
}.

(** subscriptionSchema, with the two timestamps Mongoose adds.  An edge
    carries both of its ends, as the data model has it. *)
Record SubscriptionRecord : Type := {
  subscription_id : ObjectId;
  subscriber : ObjectId;
  channel : ObjectId;
  subscription_createdAt : Z;
  subscription_updatedAt : Z
}.

(** Modelled from the spec: the Video schema (video.model.js is not part of
    the sources).  A video names its channel in [owner], the field the
    watch-history pipeline joins on; it has no field [channel]. *)
Record VideoRecord : Type := {
  video_id : ObjectId;
  owner : ObjectId;
  title : string;
  description : string;
  fileURL : string;
  views : Z;
  video_createdAt : Z
}.

Inductive LikeType : Type := video | comment | tweet.

(** Modelled from the spec: the Like schema (like.model.js is not part of the
    sources). *)
Record LikeRecord : Type := {
  like_id : ObjectId;
  resource : ObjectId;
  type : LikeType;
  likedBy : ObjectId
}.

Record DB : Type := {
  users : list UserRecord;
  subscriptions : list SubscriptionRecord;
  videos : list VideoRecord;
  likes : list LikeRecord
}.

Definition opt_field (k : string) (o : option string) : doc :=
  match o with
  | Some s => [(k, VStr s)]
  | None => []
  end.

Definition doc_of_user (u : UserRecord) : doc :=
  [("_id", VId (user_id u));
   ("username", VStr (user_username u));
   ("email", VStr (user_email u));
   ("fullName", VStr (user_fullName u));
   ("password", VStr (user_password u));
   ("avatar", VStr (user_avatar u))]
  ++ opt_field "coverImage" (user_coverImage u)
  ++ opt_field "refreshToken" (user_refreshToken u)
  ++ [("watchHistory", VArr (map VId (user_watchHistory u)))].

Definition doc_of_subscription (s : SubscriptionRecord) : doc :=
  [("_id", VId (subscription_id s));
   ("subscriber", VId (subscriber s));
   ("channel", VId (channel s));
   ("createdAt", VDate (subscription_createdAt s));
   ("updatedAt", VDate (subscription_updatedAt s))].

Definition doc_of_video (v : VideoRecord) : doc :=
  [("_id", VId (video_id v));
   ("owner", VId (owner v));
   ("title", VStr (title v));
   ("description", VStr (description v));
   ("fileURL", VStr (fileURL v));
   ("views", VNum (views v));
   ("createdAt", VDate (video_createdAt v))].

Definition string_of_LikeType (t : LikeType) : string :=
  match t with
  | video => "video"
  | comment => "comment"
  | tweet => "tweet"
  end.

Definition doc_of_like (l : LikeRecord) : doc :=
  [("_id", VId (like_id l));
   ("resource", VId (resource l));
   ("type", VStr (string_of_LikeType (type l)));
   ("likedBy", VId (likedBy l))].

(** The collections, under the names Mongoose gives them. *)
Definition collection (db : DB) (name : string) : list doc :=
  if String.eqb name "users" then map doc_of_user (users db)
  else if String.eqb name "subscriptions"
       then map doc_of_subscription (subscriptions db)
  else if String.eqb name "videos" then map doc_of_video (videos db)
  else if String.eqb name "likes" then map doc_of_like (likes db)
  else [].

(** ** Query filters *)

(** The driver writes an undefined value as null. *)
Definition to_bson (v : value) : value :=
  match v with
  | VUndefined => VNull
  | _ => v
  end.

(** The equality match of a filter [{k: v}] and of [$match]: a missing field
    matches only null, an array field matches as a whole or through one of
    its elements. *)
Definition eq_match (fv : option value) (v : value) : bool :=
  match fv with
  | None => value_eqb v VNull
  | Some (VArr l) => value_eqb (VArr l) v || existsb (fun x => value_eqb x v) l
  | Some x => value_eqb x v
  end.

Inductive cond : Type :=
| QEq (v : value)          (* {k: v} *)
| QIn (vs : list value).   (* {k: {$in: vs}} *)

Definition conditions := list (string * cond).

Definition cond_holds (fv : option value) (c : cond) : bool :=
  match c with
  | QEq v => eq_match fv (to_bson v)
  | QIn vs => existsb (fun v => eq_match fv (to_bson v)) vs
  end.

Definition satisfies (q : conditions) (d : doc) : bool :=
  forallb (fun kc => cond_holds (get (fst kc) d) (snd kc)) q.

(** ** Mongoose models *)

Inductive SchemaType : Type :=
| TString | TNumber | TDate | TObjectId | TObjectIdArray.

Record Model : Type := {
  modelName : string;
  collectionName : string;
  schema : list (string * SchemaType)
}.

Definition User : Model :=
  {| modelName := "User"; collectionName := "users";
     schema := [("username", TString); ("email", TString);
                ("fullName", TString); ("password", TString);
                ("avatar", TString); ("coverImage", TString);
                ("refreshToken", TString);
                ("watchHistory", TObjectIdArray)] |}.

Definition Subscription : Model :=
  {| modelName := "Subscription"; collectionName := "subscriptions";
     schema := [("subscriber", TObjectId); ("channel", TObjectId);
                ("createdAt", TDate); ("updatedAt", TDate)] |}.

Definition Video : Model :=
  {| modelName := "Video"; collectionName := "videos";
     schema := [("owner", TObjectId); ("title", TString);
                ("description", TString); ("fileURL", TString);
                ("views", TNumber); ("createdAt", TDate)] |}.

Definition Like : Model :=
  {| modelName := "Like"; collectionName := "likes";
     schema := [("resource", TObjectId); ("type", TString);
                ("likedBy", TObjectId)] |}.

Fixpoint assoc {A : Type} (k : string) (l : list (string * A)) : option A :=
  match l with
  | [] => None
  | (k', a) :: l' => if String.eqb k k' then Some a else assoc k l'
  end.

(** Every schema has the path [_id]. *)
Definition schema_type (m : Model) (k : string) : option SchemaType :=
  if String.eqb k "_id" then Some TObjectId else assoc k (schema m).

Section Casting.
Context `{Library}.

Definition cast_value (t : SchemaType) (v : value) : value :=
  match t, v with
  | TObjectId, VStr _ => VId (newObjectId v)
  | _, _ => v
  end.

Definition cast_cond (t : SchemaType) (c : cond) : cond :=
  match c with
  | QEq v => QEq (cast_value t v)
  | QIn vs => QIn (map (cast_value t) vs)
  end.

(** Mongoose casts the conditions of a filter by the schema.  A condition
    on a path the schema does not have is dropped under [strictQuery] and
    sent to the store as it is otherwise. *)
Fixpoint cast_conditions (m : Model) (q : conditions) : conditions :=
  match q with
  | [] => []
  | (k, c) :: q' =>
      match schema_type m k with
      | Some t => (k, cast_cond t c) :: cast_conditions m q'
      | None =>
          if strictQuery then cast_conditions m q'
          else (k, c) :: cast_conditions m q'
      end
  end.

Definition matching (db : DB) (m : Model) (q : conditions) : list doc :=
  filter (satisfies (cast_conditions m q)) (collection db (collectionName m)).
End Casting.

(** ** Ordering of results *)

(** The comparison order of BSON types, for the kinds of value this store
    holds. *)
Definition bson_class (v : option value) : Z :=
  match v with
  | None | Some VUndefined | Some VNull => 1
  | Some (VNum _) => 2
  | Some (VStr _) => 3
  | Some (VDoc _) => 4
  | Some (VArr _) => 5
  | Some (VId _) => 6
  | Some (VBool _) => 7
  | Some (VDate _) => 8
  end.

Definition bson_compare (a b : option value) : comparison :=
  match Z.compare (bson_class a) (bson_class b) with
  | Eq =>
      match a, b with
      | Some (VNum x), Some (VNum y) => Z.compare x y
      | Some (VStr x), Some (VStr y) => String.compare x y
      | Some (VId x), Some (VId y) => N.compare x y
      | Some (VBool x), Some (VBool y) => Bool.compare x y
      | Some (VDate x), Some (VDate y) => Z.compare x y
      | _, _ => Eq
      end
  | c => c
  end.

(** [sort({k: -1})]: descending, documents with equal keys in store order. *)
Fixpoint insert_desc (k : string) (x : doc) (l : list doc) : list doc :=
  match l with
  | [] => [x]
  | y :: l' =>
      match bson_compare (get k x) (get k y) with
      | Lt => y :: insert_desc k x l'
      | _ => x :: l
      end
  end.

Definition sort_desc (k : string) (l : list doc) : list doc :=
  fold_right (insert_desc k) [] l.

(** [limit(n)]: zero is no limit, a negative number counts as its absolute
    value. *)
Definition limit_docs (n : Z) (l : list doc) : list doc :=
  if n =? 0 then l else firstn (Z.to_nat (Z.abs n)) l.

(** [distinct(k)]: the values of the field, each once. *)
Fixpoint dedup (l : list value) : list value :=
  match l with
  | [] => []
  | x :: l' => x :: filter (fun y => negb (value_eqb x y)) (dedup l')
  end.

Definition field_values (k : string) (ds : list doc) : list value :=
  flat_map (fun d => match get k d with Some v => [v] | None => [] end) ds.

(** ** Aggregation stages *)

(** A stage maps the documents that reach it to the documents it emits; it
    reads the store for its joins. *)
Definition stage := DB -> list doc -> list doc.

Definition run_pipeline (p : list stage) (db : DB) (ds : list doc) : list doc :=
  fold_left (fun acc st => st db acc) p ds.

(** An expression yields a value or nothing (a missing value). *)
Definition expr := doc -> option value.

(** [{$match: {k: v}}] *)
Definition match_stage (k : string) (v : value) : stage :=
  fun _ ds => filter (fun d => eq_match (get k d) (to_bson v)) ds.

Definition or_null (v : option value) : value :=
  match v with
  | Some x => x
  | None => VNull
  end.

Definition join_scalar (x fv : value) : bool :=
  match fv with
  | VArr fs => existsb (value_eqb x) fs
  | _ => value_eqb x fv
  end.

(** The equality of [$lookup]: a missing field counts as null, and an array
    in the local field joins through each of its elements. *)
Definition lookup_match (l f : option value) : bool :=
  match or_null l with
  | VArr ls => existsb (fun x => join_scalar x (or_null f)) ls
  | x => join_scalar x (or_null f)
  end.

(** [{$lookup: {from, localField, foreignField, as, pipeline}}]: the
    documents of [from] that join, taken in the order of that collection,
    run through [pipeline] and written to [as] as an array. *)
Definition lookup_doc (db : DB) (from localField foreignField as_ : string)
    (pipeline : list stage) (d : doc) : doc :=
  let joined :=
    filter (fun f => lookup_match (get localField d) (get foreignField f))
           (collection db from) in
  set as_ (VArr (map VDoc (run_pipeline pipeline db joined))) d.

Definition lookup_stage (from localField foreignField as_ : string)
    (pipeline : list stage) : stage :=
  fun db ds => map (lookup_doc db from localField foreignField as_ pipeline) ds.

(** [{$addFields: {k1: e1, ...}}]: every expression reads the incoming
    document; a field whose expression yields nothing is left out. *)
Definition addFields_doc (fs : list (string * expr)) (d : doc) : doc :=
  fold_left (fun acc ke =>
               match snd ke d with
               | Some v => set (fst ke) v acc
               | None => remove (fst ke) acc
               end)
            fs d.

Definition addFields_stage (fs : list (string * expr)) : stage :=
  fun _ ds => map (addFields_doc fs) ds.

(** [{$project: {k1: 1, ...}}]: an inclusion projection keeps the listed
    fields that are present, and [_id]. *)
Definition projected (incl : list string) (k : string) : bool :=
  String.eqb k "_id" || existsb (String.eqb k) incl.

Definition project_doc (incl : list string) (d : doc) : doc :=
  filter (fun kv => projected incl (fst kv)) d.

Definition project_stage (incl : list string) : stage :=
  fun _ ds => map (project_doc incl) ds.

Definition numeric (v : option value) : Z :=
  match v with
  | Some (VNum n) => n
  | _ => 0
  end.

Definition sum_field (k : string) (ds : list doc) : Z :=
  fold_right (fun d acc => numeric (get k d) + acc) 0 ds.

(** [{$group: {_id: null, out: {$sum: "$k"}}}]: one group when documents
    arrive, none otherwise. *)
Definition group_sum_stage (out k : string) : stage :=
  fun _ ds =>
    match ds with
    | [] => []
    | _ => [[("_id", VNull); (out, VNum (sum_field k ds))]]
    end.

(** [{$size: "$k"}].  The store rejects a value that is not an array; the
    handlers only take the size of a field a [$lookup] has just written. *)
Definition size_expr (k : string) : expr :=
  fun d =>
    match get k d with
    | Some (VArr l) => Some (VNum (Z.of_nat (List.length l)))
    | _ => None
    end.

(** The path ["$k.sub"]: the [sub] values of the documents in the array [k]
    that have one. *)
Definition path_values (k sub : string) (d : doc) : list value :=
  match get k d with
  | Some (VArr l) =>
      flat_map (fun e =>
                  match e with
                  | VDoc ed =>
                      match get sub ed with Some v => [v] | None => [] end
                  | _ => []
                  end) l
  | _ => []
  end.

(** [{$in: [x, "$k.sub"]}] *)
Definition in_expr (x : value) (k sub : string) : doc -> bool :=
  fun d => existsb (value_eqb (to_bson x)) (path_values k sub d).

(** [{$cond: {if: c, then: t, else: e}}] *)
Definition cond_expr (c : doc -> bool) (t e : value) : expr :=
  fun d => Some (if c d then t else e).

(** [{$first: "$k"}]: nothing for an empty array. *)
Definition first_expr (k : string) : expr :=
  fun d =>
    match get k d with
    | Some (VArr (x :: _)) => Some x
    | _ => None
    end.

(** ** Handlers: store calls, exceptions and responses *)

Inductive Error : Type :=
| ApiError (statusCode : Z) (message : string)
| TypeError (message : string)
| MongoError (message : string).

Inductive Result (A : Type) : Type :=
| Returned (a : A)
| Thrown (e : Error).
Arguments Returned {A} a.
Arguments Thrown {A} e.

(** The calls a handler makes to the store, by model name. *)
Inductive StoreCall : Type :=
| CountDocuments (model : string)
| Distinct (model : string)
| Find (model : string)
| Aggregate (model : string).

(** A handler step reads the store, and yields the calls it issued and its
    result. *)
Definition M (A : Type) : Type := DB -> list StoreCall * Result A.

Definition ret {A : Type} (a : A) : M A := fun _ => ([], Returned a).

Definition throw {A : Type} (e : Error) : M A := fun _ => ([], Thrown e).

Definition bind {A B : Type} (m : M A) (k : A -> M B) : M B :=
  fun db =>
    match m db with
    | (t1, Returned a) =>
        match k a db with
        | (t2, r) => (t1 ++ t2, r)
        end
    | (t1, Thrown e) => (t1, Thrown e)
    end.

Notation "x <- m ;; k" := (bind m (fun x => k))
  (at level 61, m at next level, right associativity).

Section StoreCalls.
Context `{Library}.

(** [Model.countDocuments(q)] *)
Definition countDocuments (m : Model) (q : conditions) : M Z :=
  fun db =>
    ([CountDocuments (modelName m)],
     Returned (Z.of_nat (List.length (matching db m q)))).

(** [Model.find(q).distinct(k)] *)
Definition find_distinct (m : Model) (q : conditions) (k : string)
  : M (list value) :=
  fun db =>
    ([Distinct (modelName m)],
     Returned (dedup (field_values k (matching db m q)))).

(** [Model.find(q).skip(s).limit(l).sort({k: -1})]: the query sorts, then
    skips, then limits, whatever the order of the calls that build it. *)
Definition find_skip_limit_sort (m : Model) (q : conditions)
    (s l : Z) (k : string) : M (list doc) :=
  fun db =>
    ([Find (modelName m)],
     if s <? 0 then Thrown (MongoError "Skip value must be non-negative")
     else Returned (limit_docs l
                      (skipn (Z.to_nat s)
                         (sort_desc k (matching db m q))))).

(** [Model.aggregate(p)]: the pipeline goes to the store uncast. *)
Definition aggregate (m : Model) (p : list stage) : M (list doc) :=
  fun db =>
    ([Aggregate (modelName m)],
     Returned (run_pipeline p db (collection db (collectionName m)))).
End StoreCalls.

(** The request: route parameters are strings, query parameters are kept as
    the numbers they read as, and [user] is [req.user?._id]. *)
Record Request : Type := {
  params : list (string * string);
  query : list (string * Z);
  user : option ObjectId
}.

Definition js_str (o : option string) : value :=
  match o with
  | Some s => VStr s
  | None => VUndefined
  end.

Definition js_id (o : option ObjectId) : value :=
  match o with
  | Some i => VId i
  | None => VUndefined
  end.

(** [new ApiResponse(a1, a2, a3)], its arguments in call order (the class is
    not part of the sources). *)
Inductive ApiResponse : Type :=
| NewApiResponse (a1 a2 a3 : value).

(** [res.status(s).json(b)] *)
Record Response : Type := {
  status : Z;
  json : ApiResponse
}.

(** ** asyncHandler.js *)

Definition Handler := Request -> M Response.

(** What a middleware does with a request: it sends a response or passes an
    error to [next]. *)
Inductive Outcome : Type :=
| Sent (r : Response)
| Next (e : Error).

Definition Middleware := Request -> DB -> list StoreCall * Outcome.

Inductive jsval : Type :=
| JUndefined
| JFunction (f : Middleware).

(** [(req, res, next) => { Promise.resolve(requestHandler(req, res, next))
    .catch((error) => next(error)) }] *)
Definition wrapper (requestHandler : Handler) : Middleware :=
  fun req db =>
    match requestHandler req db with
    | (t, Returned r) => (t, Sent r)
    | (t, Thrown e) => (t, Next e)
    end.

(** The statements of a block body, and the value a call of the block
    completes with: that of its first [return], and undefined when the block
    ends without one. *)
Inductive statement : Type :=
| ExprStmt (e : jsval)
| ReturnStmt (e : jsval).

Fixpoint call_body (body : list statement) : jsval :=
  match body with
  | [] => JUndefined
  | ExprStmt _ :: body' => call_body body'
  | ReturnStmt v :: _ => v
  end.

(** [const asyncHandler = (requestHandler) => { (req, res, next) => {...} }]:
    the body is a block whose one statement is the arrow function, as an
    expression. *)
Definition asyncHandler (requestHandler : Handler) : jsval :=
  call_body [ExprStmt (JFunction (wrapper requestHandler))].

(** ** The controllers *)

Section Controllers.
Context `{Library}.

Definition default_to (d : Z) (o : option Z) : Z :=
  match o with
  | Some z => z
  | None => d
  end.

(** The function [getChannelStats] passes to [asyncHandler]. *)
Definition getChannelStats_handler : Handler := fun req =>
  let channelId := js_str (assoc "channelId" (params req)) in
  if negb (isValidObjectId channelId)
  then throw (ApiError 400 "Invalid channel ID")
  else
    totalVideos <- countDocuments Video [("channel", QEq channelId)] ;;
    totalSubscribers <-
      countDocuments Subscription [("channel", QEq channelId)] ;;
    ids <- find_distinct Video [("channel", QEq channelId)] "_id" ;;
    totalLikes <-
      countDocuments Like [("resource", QIn ids);
                           ("type", QEq (VStr "video"))] ;;
    totalViews <-
      aggregate Video
        [match_stage "channel" (VId (newObjectId channelId));
         group_sum_stage "totalViews" "views"] ;;
    ret {| status := 200;
           json := NewApiResponse (VNum 200)
                     (VStr "Channel stats fetched successfully")
                     (VDoc [("totalVideos", VNum totalVideos);
                            ("totalSubscribers", VNum totalSubscribers);
                            ("totalLikes", VNum totalLikes);
                            ("totalViews",
                             js_or (first_field totalViews "totalViews")
                                   (VNum 0))]) |}.

(** The function [getChannelVideos] passes to [asyncHandler]. *)
Definition getChannelVideos_handler : Handler := fun req =>
  let channelId := js_str (assoc "channelId" (params req)) in
  let page := default_to 1 (assoc "page" (query req)) in
  let limit := default_to 10 (assoc "limit" (query req)) in
  if negb (isValidObjectId channelId)
  then throw (ApiError 400 "Invalid channel ID")
  else
    found <- find_skip_limit_sort Video [("channel", QEq channelId)]
               ((page - 1) * limit) limit "createdAt" ;;
    ret {| status := 200;
           json := NewApiResponse (VNum 200)
                     (VStr "Channel videos fetched successfully")
                     (VArr (map VDoc found)) |}.

Definition channel_profile_pipeline (username : option string)
    (viewer : option ObjectId) : list stage :=
  [match_stage "username" (js_str (option_map toLowerCase username));
   lookup_stage "subscriptions" "_id" "channel" "subscribers" [];
   lookup_stage "subscriptions" "_id" "subscriber" "subscribedTo" [];
   addFields_stage
     [("subscribersCount", size_expr "subscribers");
      ("channelsSubscribedToCount", size_expr "subscribedTo");
      ("isSubscribed",
       cond_expr (in_expr (js_id viewer) "subscribers" "subscriber")
                 (VBool true) (VBool false))];
   project_stage ["fullName"; "username"; "avatar"; "coverImage";
                  "subscribersCount"; "channelsSubscribedToCount";
                  "isSubscribed"; "email"]].

(** The function [getUserChannelProfile] passes to [asyncHandler]. *)
Definition getUserChannelProfile_handler : Handler := fun req =>
  let username := assoc "username" (params req) in
  if negb (truthy (js_str (option_map trim username)))
  then throw (ApiError 400 "Username is required to get Profile")
  else
    channel <- aggregate User (channel_profile_pipeline username (user req)) ;;
    match channel with
    | [] => throw (ApiError 404 "Channel not found")
    | c0 :: _ =>
        ret {| status := 200;
               json := NewApiResponse (VNum 200) (VDoc c0)
                         (VStr "User Channel Profile Fetched Successfully") |}
    end.

Definition owner_pipeline : list stage :=
  [lookup_stage "users" "owner" "_id" "owner"
     [project_stage ["fullName"; "username"; "avatar"]];
   addFields_stage [("owner", first_expr "owner")]].

Definition watch_history_pipeline (uid : ObjectId) : list stage :=
  [match_stage "_id" (VId (newObjectId (VId uid)));
   lookup_stage "videos" "watchHistory" "_id" "watchHistory"
     owner_pipeline].

(** The function [getWatchHistory] passes to [asyncHandler]; reading
    [req.user._id] throws when the request carries no user. *)
Definition getWatchHistory_handler : Handler := fun req =>
  match user req with
  | None =>
      throw (TypeError "Cannot read properties of undefined (reading '_id')")
  | Some uid =>
      found <- aggregate User (watch_history_pipeline uid) ;;
      ret {| status := 200;
             json := NewApiResponse (VNum 200)
                       (js_or (first_field found "watchHistory") (VArr []))
                       (VStr "Watch History Fetched Successfully") |}
  end.

(** The exported constants. *)
Definition getChannelStats : jsval := asyncHandler getChannelStats_handler.
Definition getChannelVideos : jsval := asyncHandler getChannelVideos_handler.
Definition getUserChannelProfile : jsval :=
  asyncHandler getUserChannelProfile_handler.
Definition getWatchHistory : jsval := asyncHandler getWatchHistory_handler.
End Controllers.

(** ** A concrete library, for running the handlers *)

Definition is_space (c : ascii) : bool :=
  let n := nat_of_ascii c in
  ((9 <=? n) && (n <=? 13))%nat || (n =? 32)%nat.

Fixpoint trim_start (s : string) : string :=
  match s with
  | String c s' => if is_space c then trim_start s' else s
  | EmptyString => EmptyString
  end.

Fixpoint string_rev (s acc : string) : string :=
  match s with
  | String c s' => string_rev s' (String c acc)
  | EmptyString => acc
  end.

Definition ascii_trim (s : string) : string :=
  string_rev (trim_start (string_rev (trim_start s) EmptyString)) EmptyString.

Definition lower_char (c : ascii) : ascii :=
  let n := nat_of_ascii c in
  if ((65 <=? n) && (n <=? 90))%nat then ascii_of_nat (n + 32) else c.

Fixpoint ascii_lower (s : string) : string :=
  match s with
  | String c s' => String (lower_char c) (ascii_lower s')
  | EmptyString => EmptyString
  end.

Definition hex_digit (c : ascii) : option N :=
  let n := N_of_ascii c in
  if ((48 <=? n) && (n <=? 57))%N then Some (n - 48)%N
  else if ((97 <=? n) && (n <=? 102))%N then Some (n - 87)%N
  else if ((65 <=? n) && (n <=? 70))%N then Some (n - 55)%N
  else None.

Fixpoint hex_value (s : string) (acc : N) : option N :=
  match s with
  | EmptyString => Some acc
  | String c s' =>
      match hex_digit c with
      | Some d => hex_value s' (16 * acc + d)%N
      | None => None
      end
  end.

(** A string of 24 hexadecimal digits. *)
Definition hex24 (s : string) : bool :=
  (String.length s =? 24)%nat
  && match hex_value s 0 with Some _ => true | None => false end.

Definition hex_id (v : value) : ObjectId :=
  match v with
  | VStr s => match hex_value s 0 with Some n => n | None => 0%N end
  | _ => 0%N
  end.

Definition valid_id (v : value) : bool :=
  match v with
  | VId _ => true
  | VStr s => hex24 s
  | _ => false
  end.

Definition ascii_library (strict : bool) : Library :=
  {| trim := ascii_trim;
     toLowerCase := ascii_lower;
     isValidObjectId := valid_id;
     parseObjectId := hex_id;
     strictQuery := strict |}.

(** ** Reading the results *)

(** The fields of a document all come from [allowed]. *)
Definition only_fields (allowed : list string) (d : doc) : Prop :=
  forall k, In k (keys d) -> In k allowed.

(** The eight fields the channel profile projects. *)
Definition profile_fields : list string :=
  ["fullName"; "username"; "avatar"; "coverImage"; "subscribersCount";
   "channelsSubscribedToCount"; "isSubscribed"; "email"].

(** The owner as a watch-history entry shows it. *)
Definition owner_view (o : UserRecord) : doc :=
  [("_id", VId (user_id o));
   ("username", VStr (user_username o));
   ("fullName", VStr (user_fullName o));
   ("avatar", VStr (user_avatar o))].

Definition user_by_id (db : DB) (i : ObjectId) : option UserRecord :=
  find (fun u => N.eqb (user_id u) i) (users db).

(** A video of the watch history with its owner joined in: the [owner] field
    holds the owner's view, and is absent when no user has that id. *)
Definition enriched (db : DB) (v : VideoRecord) : doc :=
  match user_by_id db (owner v) with
  | Some o => set "owner" (VDoc (owner_view o)) (doc_of_video v)
  | None => remove "owner" (doc_of_video v)
  end.

(** The videos a watch-history list names, as the videos collection holds
    them. *)
Definition watched (db : DB) (history : list ObjectId) : list VideoRecord :=
  filter (fun v => existsb (N.eqb (video_id v)) history) (videos db).

(** What the stages after [$match] make of one user document. *)
Definition profile_doc (db : DB) (viewer : option ObjectId) (d : doc) : doc :=
  project_doc profile_fields
    (addFields_doc
       [("subscribersCount", size_expr "subscribers");
        ("channelsSubscribedToCount", size_expr "subscribedTo");
        ("isSubscribed",
         cond_expr (in_expr (js_id viewer) "subscribers" "subscriber")
                   (VBool true) (VBool false))]
       (lookup_doc db "subscriptions" "_id" "subscriber" "subscribedTo" []
          (lookup_doc db "subscriptions" "_id" "channel" "subscribers" [] d))).

(** What [getWatchHistory]'s handler answers for an authenticated
    request. *)
Definition history_of (db : DB) (uid : ObjectId) : list value :=
  match user_by_id db uid with
  | Some u => map (fun v => VDoc (enriched db v))
                  (watched db (user_watchHistory u))
  | None => []
  end.

(** What the statistics of a channel are about. *)
Definition videos_owned (db : DB) (c : ObjectId) : list VideoRecord :=
  filter (fun v => N.eqb (owner v) c) (videos db).

Definition video_likes_of (db : DB) (c : ObjectId) : list LikeRecord :=
  filter (fun l =>
            match type l with
            | video =>
                existsb (N.eqb (resource l)) (map video_id (videos_owned db c))
            | _ => false
            end)
         (likes db).

Definition views_of (db : DB) (c : ObjectId) : Z :=
  fold_right Z.add 0 (map views (videos_owned db c)).

(** The page of a channel's videos, newest first. *)
Definition page_of (db : DB) (c : ObjectId) (page limit : Z) : list doc :=
  firstn (Z.to_nat limit)
    (skipn (Z.to_nat ((page - 1) * limit))
       (sort_desc "createdAt" (map doc_of_video (videos_owned db c)))).

(** One entry of the statistics a response carries. *)
Definition stat (k : string) (r : list StoreCall * Result Response)
  : option value :=
  match r with
  | (_, Returned {| json := NewApiResponse _ _ (VDoc d) |}) => get k d
  | _ => None
  end.

(** ** A small store

    Three users; bob and carol follow alice, alice follows bob.  Bob owns
    video 11, carol owns video 13, and the collection holds 11 before 13;
    alice watched 13, then 11. *)
Definition a_user (i : ObjectId) (name : string) (history : list ObjectId)
  : UserRecord :=
  {| user_id := i;
     user_username := name;
     user_email := name;
     user_fullName := name;
     user_password := "$2b$10$hash";
     user_avatar := "avatar.png";
     user_coverImage := Some "cover.png";
     user_refreshToken := Some "token";
     user_watchHistory := history |}.

Definition a_video (i o : ObjectId) (n t : Z) : VideoRecord :=
  {| video_id := i; owner := o; title := "title"; description := "text";
     fileURL := "file.mp4"; views := n; video_createdAt := t |}.

Definition an_edge (i s c : ObjectId) : SubscriptionRecord :=
  {| subscription_id := i; subscriber := s; channel := c;
     subscription_createdAt := 0; subscription_updatedAt := 0 |}.

Definition alice : UserRecord := a_user 1 "alice" [13%N; 11%N].
Definition bob : UserRecord := a_user 2 "bob" [].
Definition carol : UserRecord := a_user 3 "carol" [].

Definition example_db : DB :=
  {| users := [alice; bob; carol];
     subscriptions := [an_edge 21 2 1; an_edge 22 3 1; an_edge 23 1 2];
     videos := [a_video 11 2 5 100; a_video 13 3 7 300];
     likes := [ {| like_id := 31; resource := 11; type := video; likedBy := 1 |};
                {| like_id := 32; resource := 13; type := video; likedBy := 1 |};
                {| like_id := 33; resource := 11; type := comment;
                   likedBy := 3 |} ] |}.

(** Bob's channel with exactly seven videos, created at times 100 to 700,
    and one newer video of carol's. *)
Definition seven_videos_db : DB :=
  {| users := [alice; bob; carol];
     subscriptions := [];
     videos := [a_video 41 2 0 100; a_video 42 2 0 200; a_video 43 2 0 300;
                a_video 44 2 0 400; a_video 45 2 0 500; a_video 46 2 0 600;
                a_video 47 2 0 700; a_video 48 3 0 800];
     likes := [] |}.

Definition bob_id : string := "000000000000000000000002".

Definition a_request (ps : list (string * string)) (qs : list (string * Z))
    (viewer : option ObjectId) : Request :=
  {| params := ps; query := qs; user := viewer |}.

(** The second and third argument of the [ApiResponse] a handler answers
    with. *)
Definition second_of (r : list StoreCall * Result Response) : option value :=
  match r with
  | (_, Returned {| json := NewApiResponse _ a2 _ |}) => Some a2
  | _ => None
  end.

Definition third_of (r : list StoreCall * Result Response) : option value :=
  match r with
  | (_, Returned {| json := NewApiResponse _ _ a3 |}) => Some a3
  | _ => None
  end.

(** ** The account handlers of the user controller *)

Fixpoint has_char (c : ascii) (s : string) : bool :=
  match s with
  | EmptyString => false
  | String c' s' => Ascii.eqb c' c || has_char c s'
  end.

(** [s.split(sep)] for a separator of one character: the pieces between the
    separators, at least one. *)
Fixpoint split_on (sep : ascii) (s : string) : list string :=
  match s with
  | EmptyString => [EmptyString]
  | String c s' =>
      if Ascii.eqb c sep then EmptyString :: split_on sep s'
      else match split_on sep s' with
           | piece :: pieces => String c piece :: pieces
           | [] => [String c EmptyString]
           end
  end.

(** [url.split("/").pop()?.split(".")[0]]: a split has a last piece and a
    first one, so neither step yields undefined. *)
Definition publicId_of (url : string) : string :=
  hd EmptyString (split_on "." (last (split_on "/" url) EmptyString)).

(** What the account handlers take from outside the repository's sources:
    the methods of the user model, token verification, the Cloudinary
    helpers, and what [save] and [create] do with a user document.  Each can
    reject.  [jwt_verify] gives the user id the payload's [_id] denotes, if
    it has one; [dropsUndefined] says whether a filter condition whose value
    is undefined is dropped (true) or sent as null (false). *)
Record Uploaded : Type := { url : option string }.

Record NewUser : Type := {
  new_fullName : option string;
  new_avatar : option string;
  new_coverImage : string;
  new_email : option string;
  new_password : option string;
  new_username : string
}.

Class Services : Type := {
  isPasswordCorrect : UserRecord -> option string -> Result bool;
  generateAccessToken : UserRecord -> Result string;
  generateRefreshToken : UserRecord -> Result string;
  jwt_verify : string -> Result (option ObjectId);
  uploadOnCloudinary : option string -> Result (option Uploaded);
  deleteFromCloudinary : string -> Result unit;
  password_on_save : option string -> Result string;
  createUser : DB -> NewUser -> Result (DB * ObjectId);
  dropsUndefined : bool
}.

(** The calls a handler makes to the store and to Cloudinary. *)
Inductive Action : Type :=
| UserFindOne
| UserFindById
| UserSave
| UserFindByIdAndUpdate
| UserCreate
| CloudinaryUpload (path : option string)
| CloudinaryDelete (publicId : string).

(** A handler step that may change the store: the calls it made, its
    result, and the store it leaves.  A throw keeps the changes made before
    it. *)
Definition St (A : Type) : Type := DB -> list Action * Result A * DB.

Definition retS {A : Type} (a : A) : St A := fun db => ([], Returned a, db).

Definition throwS {A : Type} (e : Error) : St A := fun db => ([], Thrown e, db).

Definition bindS {A B : Type} (m : St A) (k : A -> St B) : St B :=
  fun db =>
    match m db with
    | (t1, Returned a, db1) =>
        match k a db1 with
        | (t2, r, db2) => (t1 ++ t2, r, db2)
        end
    | (t1, Thrown e, db1) => (t1, Thrown e, db1)
    end.

Notation "x <-- m ;; k" := (bindS m (fun x => k))
  (at level 61, m at next level, right associativity).

(** The result of a call that touches nothing. *)
Definition liftS {A : Type} (r : Result A) : St A := fun db => ([], r, db).

(** A call outside the store, recorded. *)
Definition call {A : Type} (a : Action) (r : Result A) : St A :=
  fun db => ([a], r, db).

(** [try { m } catch (error) { h error }] *)
Definition try_catch {A : Type} (m : St A) (h : Error -> St A) : St A :=
  fun db =>
    match m db with
    | (t1, Returned a, db1) => (t1, Returned a, db1)
    | (t1, Thrown e, db1) =>
        match h e db1 with
        | (t2, r, db2) => (t1 ++ t2, r, db2)
        end
    end.

(** [updateOne({_id: i}, ...)]: the first user with the id is rewritten. *)
Fixpoint update_first (i : ObjectId) (f : UserRecord -> UserRecord)
    (us : list UserRecord) : list UserRecord :=
  match us with
  | [] => []
  | u :: us' =>
      if N.eqb (user_id u) i then f u :: us'
      else u :: update_first i f us'
  end.

Definition update_user (i : ObjectId) (f : UserRecord -> UserRecord) (db : DB)
  : DB :=
  {| users := update_first i f (users db);
     subscriptions := subscriptions db;
     videos := videos db;
     likes := likes db |}.

Definition with_refreshToken (t : option string) (u : UserRecord)
  : UserRecord :=
  {| user_id := user_id u;
     user_username := user_username u;
     user_email := user_email u;
     user_fullName := user_fullName u;
     user_password := user_password u;
     user_avatar := user_avatar u;
     user_coverImage := user_coverImage u;
     user_refreshToken := t;
     user_watchHistory := user_watchHistory u |}.

Definition with_password (p : string) (u : UserRecord) : UserRecord :=
  {| user_id := user_id u;
     user_username := user_username u;
     user_email := user_email u;
     user_fullName := user_fullName u;
     user_password := p;
     user_avatar := user_avatar u;
     user_coverImage := user_coverImage u;
     user_refreshToken := user_refreshToken u;
     user_watchHistory := user_watchHistory u |}.

Definition with_avatar (a : string) (u : UserRecord) : UserRecord :=
  {| user_id := user_id u;
     user_username := user_username u;
     user_email := user_email u;
     user_fullName := user_fullName u;
     user_password := user_password u;
     user_avatar := a;
     user_coverImage := user_coverImage u;
     user_refreshToken := user_refreshToken u;
     user_watchHistory := user_watchHistory u |}.

Definition with_coverImage (c : string) (u : UserRecord) : UserRecord :=
  {| user_id := user_id u;
     user_username := user_username u;
     user_email := user_email u;
     user_fullName := user_fullName u;
     user_password := user_password u;
     user_avatar := user_avatar u;
     user_coverImage := Some c;
     user_refreshToken := user_refreshToken u;
     user_watchHistory := user_watchHistory u |}.

(** [select("-k1 -k2 ...")] on a found document; null when none was
    found. *)
Definition select_without (ks : list string) (o : option UserRecord) : value :=
  match o with
  | Some u => VDoc (fold_right remove (doc_of_user u) ks)
  | None => VNull
  end.

(** The request as the account handlers read it: the string fields of the
    body, the cookies, [req.user], the path of [req.file] and the paths of
    the files of [req.files]. *)
Record AuthUser : Type := {
  auth_id : ObjectId;
  auth_avatar : option string
}.

Record Files : Type := {
  files_avatar : option (list string);
  files_coverImage : option (list string)
}.

Record AccountRequest : Type := {
  body : list (string * string);
  cookies : list (string * string);
  auth : option AuthUser;
  file : option string;
  files : option Files
}.

Record CookieOptions : Type := {
  httpOnly : bool;
  secure : bool
}.

Inductive Cookie : Type :=
| SetCookie (name : string) (v : value) (o : CookieOptions)
| ClearCookie (name : string) (o : CookieOptions).

(** [res.status(s).cookie(...)... .json(b)] *)
Record Reply : Type := {
  reply_status : Z;
  reply_cookies : list Cookie;
  reply_json : ApiResponse
}.

Definition AccountHandler := AccountRequest -> St Reply.

Definition options : CookieOptions := {| httpOnly := true; secure := true |}.

Definition string_eq_opt (s : string) (o : option string) : bool :=
  match o with
  | Some s' => String.eqb s s'
  | None => false
  end.

Definition string_truthy (o : option string) : bool := truthy (js_str o).

(** [req.cookies.refreshToken || req.body.refreshToken] *)
Definition incoming_token (req : AccountRequest) : option string :=
  if string_truthy (assoc "refreshToken" (cookies req))
  then assoc "refreshToken" (cookies req)
  else assoc "refreshToken" (body req).

Section Account.
Context {lib : Library} {svc : Services}.

Definition drop_undefined (q : conditions) : conditions :=
  filter (fun kc => match snd kc with
                    | QEq VUndefined => false
                    | _ => true
                    end) q.

Definition sent_conditions (q : conditions) : conditions :=
  if dropsUndefined then drop_undefined q else q.

(** [User.findOne({$or: qs})]: the first user one of the filters matches,
    each filter cast by the schema as modelled. *)
Definition found_by (qs : list conditions) (db : DB) : option UserRecord :=
  find (fun u =>
          existsb (fun q => satisfies (cast_conditions User (sent_conditions q))
                                      (doc_of_user u)) qs)
       (users db).

Definition findOne_or (qs : list conditions) : St (option UserRecord) :=
  fun db => ([UserFindOne], Returned (found_by qs db), db).

(** [{$or: [{username}, {email}]}] *)
Definition by_username_or_email (username email : option string)
  : list conditions :=
  [[("username", QEq (js_str username))]; [("email", QEq (js_str email))]].

(** [User.findById(i)]; an undefined id finds nothing. *)
Definition findById (i : option ObjectId) : St (option UserRecord) :=
  fun db =>
    ([UserFindById],
     Returned (match i with
               | Some i => user_by_id db i
               | None => None
               end),
     db).

(** [user.refreshToken = t; user.save({validateBeforeSave: false})] *)
Definition save_refreshToken (u : UserRecord) (t : string) : St unit :=
  fun db =>
    ([UserSave], Returned tt,
     update_user (user_id u) (with_refreshToken (Some t)) db).

(** [user.password = p; user.save({validateBeforeSave: false})] *)
Definition save_password (u : UserRecord) (p : option string) : St unit :=
  fun db =>
    match password_on_save p with
    | Returned stored =>
        ([UserSave], Returned tt,
         update_user (user_id u) (with_password stored) db)
    | Thrown e => ([UserSave], Thrown e, db)
    end.

(** [User.findByIdAndUpdate(i, update, {new: true})]: the document after
    the update, or nothing. *)
Definition findByIdAndUpdate (i : option ObjectId)
    (f : UserRecord -> UserRecord) : St (option UserRecord) :=
  fun db =>
    match i with
    | Some i =>
        ([UserFindByIdAndUpdate],
         Returned (option_map f (user_by_id db i)),
         update_user i f db)
    | None => ([UserFindByIdAndUpdate], Returned None, db)
    end.

Definition token_error : Error :=
  ApiError 500 "Something went wrong while generating refresh and access token".

Definition generateAccessAndRefreshTokens (userId : ObjectId)
  : St (string * string) :=
  try_catch
    (found <-- findById (Some userId) ;;
     match found with
     | None =>
         throwS (TypeError
                   "Cannot read properties of null (reading 'generateAccessToken')")
     | Some u =>
         accessToken <-- liftS (generateAccessToken u) ;;
         refreshToken <-- liftS (generateRefreshToken u) ;;
         _ <-- save_refreshToken u refreshToken ;;
         retS (accessToken, refreshToken)
     end)
    (fun _ => throwS token_error).

(** [field?.trim() === ""]: false for a field that is absent. *)
Definition blank_field (field : option string) : bool :=
  match field with
  | Some s => String.eqb (trim s) ""
  | None => false
  end.

Definition registration_error : Error :=
  ApiError 500 "Something went wrong while registering the user".

(** The function [registerUser] passes to [asyncHandler]. *)
Definition registerUser_handler : AccountHandler := fun req =>
  let fullName := assoc "fullName" (body req) in
  let email := assoc "email" (body req) in
  let username := assoc "username" (body req) in
  let password := assoc "password" (body req) in
  if existsb blank_field [fullName; email; username; password]
  then throwS (ApiError 400 "All fields are required")
  else
    existedUser <-- findOne_or (by_username_or_email username email) ;;
    match existedUser with
    | Some _ =>
        throwS (ApiError 409 "User with email or username already exists")
    | None =>
        avatarLocalPath <--
          match files req with
          | None => retS None
          | Some fs =>
              match files_avatar fs with
              | None =>
                  throwS (TypeError
                            "Cannot read properties of undefined (reading '0')")
              | Some paths => retS (hd_error paths)
              end
          end ;;
        let coverImageLocalPath :=
          match files req with
          | Some fs =>
              match files_coverImage fs with
              | Some (p :: _) => Some p
              | _ => None
              end
          | None => None
          end in
        if negb (string_truthy avatarLocalPath)
        then throwS (ApiError 400 "Avatar File is required")
        else
          avatar <-- call (CloudinaryUpload avatarLocalPath)
                          (uploadOnCloudinary avatarLocalPath) ;;
          coverImage <-- call (CloudinaryUpload coverImageLocalPath)
                              (uploadOnCloudinary coverImageLocalPath) ;;
          match avatar with
          | None => throwS (ApiError 400 "Avatar File could not be uploaded")
          | Some a =>
              match username with
              | None =>
                  throwS (TypeError
                            "Cannot read properties of undefined (reading 'toLowerCase')")
              | Some name =>
                  let cover :=
                    match coverImage with
                    | Some c =>
                        if string_truthy (url c)
                        then match url c with Some s => s | None => "" end
                        else ""
                    | None => ""
                    end in
                  created <--
                    (fun db =>
                       match createUser db
                               {| new_fullName := fullName;
                                  new_avatar := url a;
                                  new_coverImage := cover;
                                  new_email := email;
                                  new_password := password;
                                  new_username := toLowerCase name |} with
                       | Returned (db', i) => ([UserCreate], Returned i, db')
                       | Thrown e => ([UserCreate], Thrown e, db)
                       end) ;;
                  createdUser <-- findById (Some created) ;;
                  match createdUser with
                  | None =>
                      throwS registration_error
                  | Some _ =>
                      retS {| reply_status := 201;
                              reply_cookies := [];
                              reply_json :=
                                NewApiResponse (VNum 200)
                                  (select_without ["password"; "refreshToken"]
                                                  createdUser)
                                  (VStr "User Registered Successfully") |}
                  end
              end
          end
    end.

(** The function [loginUser] passes to [asyncHandler]. *)
Definition loginUser_handler : AccountHandler := fun req =>
  let email := assoc "email" (body req) in
  let username := assoc "username" (body req) in
  let password := assoc "password" (body req) in
  if negb (truthy (js_or (js_str username) (js_str email)))
  then throwS (ApiError 400 "username or email is required")
  else
    found <-- findOne_or (by_username_or_email username email) ;;
    match found with
    | None => throwS (ApiError 404 "User not found")
    | Some u =>
        isPasswordValid <-- liftS (isPasswordCorrect u password) ;;
        if negb isPasswordValid
        then throwS (ApiError 401 "Invalid user credentials")
        else
          tokens <-- generateAccessAndRefreshTokens (user_id u) ;;
          loggedInUser <-- findById (Some (user_id u)) ;;
          retS {| reply_status := 200;
                  reply_cookies :=
                    [SetCookie "accessToken" (VStr (fst tokens)) options;
                     SetCookie "refreshToken" (VStr (snd tokens)) options];
                  reply_json :=
                    NewApiResponse (VNum 200)
                      (VDoc [("user",
                              select_without ["password"; "refreshToken"]
                                             loggedInUser);
                             ("accessToken", VStr (fst tokens));
                             ("refreshToken", VStr (snd tokens))])
                      (VStr "User loggedIn Succesfully") |}
    end.

(** The function [logoutUser] passes to [asyncHandler]. *)
Definition logoutUser_handler : AccountHandler := fun req =>
  match auth req with
  | None =>
      throwS (TypeError "Cannot read properties of undefined (reading '_id')")
  | Some a =>
      _ <-- findByIdAndUpdate (Some (auth_id a)) (with_refreshToken None) ;;
      retS {| reply_status := 200;
              reply_cookies := [ClearCookie "accessToken" options;
                                ClearCookie "refreshToken" options];
              reply_json := NewApiResponse (VNum 200) (VDoc [])
                              (VStr "User Logged Out") |}
  end.

(** The function [refreshAccessToken] passes to [asyncHandler].  The
    destructuring takes [newrefreshToken] from an object that has
    [accessToken] and [refreshToken]: it is undefined. *)
Definition refreshAccessToken_handler : AccountHandler := fun req =>
  let incomingRefreshToken := incoming_token req in
  match incomingRefreshToken with
  | None => throwS (ApiError 401 "Unauthorized request")
  | Some incoming =>
      if negb (string_truthy incomingRefreshToken)
      then throwS (ApiError 401 "Unauthorized request")
      else
        try_catch
          (decoded <-- liftS (jwt_verify incoming) ;;
           found <-- findById decoded ;;
           match found with
           | None => throwS (ApiError 401 "Invalid refresh token")
           | Some u =>
               if negb (string_eq_opt incoming (user_refreshToken u))
               then throwS (ApiError 401 "Refresh token is expired or used")
               else
                 tokens <-- generateAccessAndRefreshTokens (user_id u) ;;
                 let accessToken := fst tokens in
                 let newrefreshToken := VUndefined in
                 retS {| reply_status := 200;
                         reply_cookies :=
                           [SetCookie "accessToken" (VStr accessToken) options;
                            SetCookie "refreshToken" newrefreshToken options];
                         reply_json :=
                           NewApiResponse (VNum 200)
                             (VDoc [("accessToken", VStr accessToken);
                                    ("refreshToken", newrefreshToken)])
                             (VStr "Access token refreshed") |}
           end)
          (fun _ => throwS (ApiError 401 "Invalid refresh Token"))
  end.

(** The function [changeCurrentPassword] passes to [asyncHandler]. *)
Definition changeCurrentPassword_handler : AccountHandler := fun req =>
  let oldPassword := assoc "oldPassword" (body req) in
  let newPassword := assoc "newPassword" (body req) in
  found <-- findById (option_map auth_id (auth req)) ;;
  match found with
  | None =>
      throwS (TypeError
                "Cannot read properties of null (reading 'isPasswordCorrect')")
  | Some u =>
      isCorrect <-- liftS (isPasswordCorrect u oldPassword) ;;
      if negb isCorrect
      then throwS (ApiError 400 "Invalid old Password")
      else
        _ <-- save_password u newPassword ;;
        retS {| reply_status := 200;
                reply_cookies := [];
                reply_json := NewApiResponse (VNum 200) (VDoc [])
                                (VStr "Password Changed Successfully") |}
  end.

(** The function [updateUserAvatar] passes to [asyncHandler]. *)
Definition updateUserAvatar_handler : AccountHandler := fun req =>
  let avatarLocalPath := file req in
  if negb (string_truthy avatarLocalPath)
  then throwS (ApiError 400 "Avatar file is missing")
  else
    let imageToBeDeleted :=
      match auth req with
      | Some a => auth_avatar a
      | None => None
      end in
    _ <-- (if string_truthy imageToBeDeleted
           then match imageToBeDeleted with
                | Some image =>
                    call (CloudinaryDelete (publicId_of image))
                         (deleteFromCloudinary (publicId_of image))
                | None => retS tt
                end
           else retS tt) ;;
    avatar <-- call (CloudinaryUpload avatarLocalPath)
                    (uploadOnCloudinary avatarLocalPath) ;;
    match avatar with
    | None =>
        throwS (TypeError "Cannot read properties of null (reading 'url')")
    | Some a =>
        match url a with
        | Some link =>
            if negb (string_truthy (Some link))
            then throwS (ApiError 400 "Error while uploading on avatar")
            else
              updated <-- findByIdAndUpdate (option_map auth_id (auth req))
                                            (with_avatar link) ;;
              retS {| reply_status := 200;
                      reply_cookies := [];
                      reply_json :=
                        NewApiResponse (VNum 200)
                          (select_without ["password"] updated)
                          (VStr "Avatar Image updated successfully") |}
        | None => throwS (ApiError 400 "Error while uploading on avatar")
        end
    end.

(** The function [updateUserCoverImage] passes to [asyncHandler]. *)
Definition updateUserCoverImage_handler : AccountHandler := fun req =>
  let coverImageLocalPath := file req in
  if negb (string_truthy coverImageLocalPath)
  then throwS (ApiError 400 "Cover image file is missing")
  else
    coverImage <-- call (CloudinaryUpload coverImageLocalPath)
                        (uploadOnCloudinary coverImageLocalPath) ;;
    match coverImage with
    | None =>
        throwS (TypeError "Cannot read properties of null (reading 'url')")
    | Some c =>
        match url c with
        | Some link =>
            if negb (string_truthy (Some link))
            then throwS (ApiError 400 "Error while uploading on cover image")
            else
              updated <-- findByIdAndUpdate (option_map auth_id (auth req))
                                            (with_coverImage link) ;;
              retS {| reply_status := 200;
                      reply_cookies := [];
                      reply_json :=
                        NewApiResponse (VNum 200)
                          (select_without ["password"] updated)
                          (VStr "Cover Image updated successfully") |}
        | None => throwS (ApiError 400 "Error while uploading on cover image")
        end
    end.
End Account.

(** ** Concrete services, for running the account handlers

    Passwords are compared as stored, tokens are read off the user name,
    the token ["token"] verifies as alice's, and [uploads] says whether
    Cloudinary takes a file. *)
Definition appended_user (db : DB) (n : NewUser) : DB :=
  {| users := users db
              ++ [ {| user_id := 100;
                      user_username := new_username n;
                      user_email :=
                        match new_email n with Some s => s | None => "" end;
                      user_fullName :=
                        match new_fullName n with Some s => s | None => "" end;
                      user_password :=
                        match new_password n with Some s => s | None => "" end;
                      user_avatar :=
                        match new_avatar n with Some s => s | None => "" end;
                      user_coverImage := Some (new_coverImage n);
                      user_refreshToken := None;
                      user_watchHistory := [] |} ];
     subscriptions := subscriptions db;
     videos := videos db;
     likes := likes db |}.

Definition test_services (uploads : bool) : Services :=
  {| isPasswordCorrect := fun u p =>
       Returned (string_eq_opt (user_password u) p);
     generateAccessToken := fun u =>
       Returned (String.append "access:" (user_username u));
     generateRefreshToken := fun u =>
       Returned (String.append "refresh:" (user_username u));
     jwt_verify := fun t =>
       if String.eqb t "token" then Returned (Some 1%N)
       else Thrown (TypeError "jwt malformed");
     uploadOnCloudinary := fun p =>
       match p with
       | Some path =>
           if uploads
           then Returned (Some {| url := Some (String.append "cdn/" path) |})
           else Returned None
       | None => Returned None
       end;
     deleteFromCloudinary := fun _ => Returned tt;
     password_on_save := fun p =>
       match p with
       | Some s => Returned (String.append "hashed:" s)
       | None => Thrown (TypeError "data and salt arguments required")
       end;
     createUser := fun db n => Returned (appended_user db n, 100%N);
     dropsUndefined := false |}.

Definition an_account_request (fields cs : list (string * string))
    (a : option AuthUser) (f : option string) (fs : option Files)
  : AccountRequest :=
  {| body := fields; cookies := cs; auth := a; file := f; files := fs |}.

Definition as_alice : AuthUser :=
  {| auth_id := 1; auth_avatar := Some "http://cdn/images/old.png" |}.

Definition as_bob : AuthUser := {| auth_id := 2; auth_avatar := None |}.

(** A store whose one user watched video 11 twice, and a video that is not
    stored. *)
Definition rewatch_db : DB :=
  {| users := [a_user 5 "dora" [11%N; 11%N; 77%N]];
     subscriptions := [];
     videos := [a_video 11 5 0 100; a_video 13 5 0 300];
     likes := [] |}.

Definition lib0 : Library := ascii_library false.
Definition svc_up : Services := test_services true.
Definition svc_down : Services := test_services false.

Definition dave_fields : list (string * string) :=
  [("fullName", "Dave"); ("email", "dave@x"); ("username", "Dave");
   ("password", "pw")].

Definition one_avatar : Files :=
  {| files_avatar := Some ["tmp/a.png"]; files_coverImage := None |}.

(** * Properties *)

Section Properties.
Context `{Library}.

Lemma filter_map_comm {A B : Type} (p : B -> bool) (f : A -> B) (l : list A) :
  filter p (map f l) = map f (filter (fun a => p (f a)) l).
Proof.
  induction l as [|a l IH]; cbn; [reflexivity|].
  destruct (p (f a)); cbn; now rewrite IH.
Qed.

Lemma filter_none {A : Type} (p : A -> bool) (l : list A) :
  (forall a, In a l -> p a = false) -> filter p l = [].
Proof.
  induction l as [|a l IH]; cbn; intros Hp; [reflexivity|].
  rewrite (Hp a (or_introl eq_refl)). apply IH. intros b Hb. apply Hp. now right.
Qed.

Lemma users_matching_username (x : string) (us : list UserRecord) :
  filter (fun d => eq_match (get "username" d) (to_bson (VStr x)))
         (map doc_of_user us)
  = map doc_of_user (filter (fun u => String.eqb (user_username u) x) us).
Proof. rewrite filter_map_comm. reflexivity. Qed.

Lemma truthy_trimmed (o : option string) :
  truthy (js_str (option_map trim o)) = true <->
  exists s, o = Some s /\ trim s <> "".
Proof.
  destruct o as [s|]; cbn.
  - rewrite negb_true_iff, String.eqb_neq. split.
    + intros Hs. now exists s.
    + intros (s' & [= <-] & Hs). exact Hs.
  - split; [discriminate|]. now intros (s & [=] & _).
Qed.

(** Claim C2.  [asyncHandler] is meant to return the wrapper that calls the
    request handler and passes a rejection to [next]; its body only
    evaluates the wrapper, so the call completes with undefined for every
    request handler, and every exported constant is undefined. *)
Theorem asyncHandler_returns_undefined (requestHandler : Handler) :
  asyncHandler requestHandler = JUndefined
  /\ getChannelStats = JUndefined
  /\ getChannelVideos = JUndefined
  /\ getUserChannelProfile = JUndefined
  /\ getWatchHistory = JUndefined.
Proof. repeat split. Qed.

(** Claim C9.  When the channel id is not a valid identifier, both
    dashboard handlers throw the 400 error and issue no store call. *)
Theorem invalid_channelId_rejected (req : Request) (db : DB) :
  isValidObjectId (js_str (assoc "channelId" (params req))) = false ->
  getChannelStats_handler req db
    = ([], Thrown (ApiError 400 "Invalid channel ID"))
  /\ getChannelVideos_handler req db
    = ([], Thrown (ApiError 400 "Invalid channel ID")).
Proof.
  intros Hv. unfold getChannelStats_handler, getChannelVideos_handler.
  rewrite Hv. cbn. split; reflexivity.
Qed.

(** Claim C7.  The channel profile throws the 400 error, with no store
    call, when the target username is absent or blank after trimming; it
    throws the 404 error, after its one aggregate, when the username is not
    blank and no user has its lower-case form as username. *)
Theorem channel_profile_errors (req : Request) (db : DB) :
  ((forall s, assoc "username" (params req) = Some s -> trim s = "") ->
   getUserChannelProfile_handler req db
     = ([], Thrown (ApiError 400 "Username is required to get Profile")))
  /\ (forall s,
        assoc "username" (params req) = Some s ->
        trim s <> "" ->
        (forall u, In u (users db) -> user_username u <> toLowerCase s) ->
        getUserChannelProfile_handler req db
          = ([Aggregate "User"], Thrown (ApiError 404 "Channel not found"))).
Proof.
  unfold getUserChannelProfile_handler. split.
  - intros Hblank.
    destruct (truthy (js_str (option_map trim (assoc "username" (params req)))))
      eqn:Ht; [|reflexivity].
    apply truthy_trimmed in Ht. destruct Ht as (s & Hs & Hne).
    now apply Hblank in Hs.
  - intros s Hs Hne Hnone.
    assert (Ht : truthy (js_str (option_map trim (assoc "username" (params req)))) = true)
      by (apply truthy_trimmed; now exists s).
    rewrite Ht, Hs. cbn [negb].
    unfold bind, aggregate, channel_profile_pipeline, run_pipeline.
    cbn [fold_left option_map js_str collectionName User modelName].
    unfold match_stage at 1.
    change (collection db "users") with (map doc_of_user (users db)).
    rewrite users_matching_username.
    rewrite (filter_none _ (users db)).
    + reflexivity.
    + intros u Hu. apply String.eqb_neq. now apply Hnone.
Qed.

(** *** The channel profile *)

Lemma find_filter_head {A : Type} (p : A -> bool) (l : list A) (a : A) :
  find p l = Some a -> exists rest, filter p l = a :: rest.
Proof.
  induction l as [|b l IH]; cbn; [discriminate|].
  destruct (p b) eqn:Hb.
  - intros [= ->]. eauto.
  - exact IH.
Qed.

Lemma subscriptions_of_channel (db : DB) (i : ObjectId) :
  filter (fun f => lookup_match (Some (VId i)) (get "channel" f))
         (collection db "subscriptions")
  = map doc_of_subscription
        (filter (fun s => N.eqb i (channel s)) (subscriptions db)).
Proof.
  change (collection db "subscriptions")
    with (map doc_of_subscription (subscriptions db)).
  rewrite filter_map_comm. reflexivity.
Qed.

Lemma subscriptions_of_subscriber (db : DB) (i : ObjectId) :
  filter (fun f => lookup_match (Some (VId i)) (get "subscriber" f))
         (collection db "subscriptions")
  = map doc_of_subscription
        (filter (fun s => N.eqb i (subscriber s)) (subscriptions db)).
Proof.
  change (collection db "subscriptions")
    with (map doc_of_subscription (subscriptions db)).
  rewrite filter_map_comm. reflexivity.
Qed.

Lemma subscriber_values (l : list SubscriptionRecord) :
  flat_map (fun e =>
              match e with
              | VDoc ed =>
                  match get "subscriber" ed with Some v => [v] | None => [] end
              | _ => []
              end)
           (map VDoc (map doc_of_subscription l))
  = map (fun s => VId (subscriber s)) l.
Proof. induction l as [|s l IH]; cbn; [reflexivity|]. now rewrite IH. Qed.

Lemma channel_profile_pipeline_run (db : DB) (username : option string)
    (viewer : option ObjectId) :
  run_pipeline (channel_profile_pipeline username viewer) db
               (collection db "users")
  = map (profile_doc db viewer)
        (map doc_of_user
           (filter (fun u => match username with
                             | Some s => String.eqb (user_username u) (toLowerCase s)
                             | None => false
                             end) (users db))).
Proof.
  unfold channel_profile_pipeline, run_pipeline. cbn [fold_left].
  unfold project_stage, addFields_stage, lookup_stage.
  rewrite !map_map. unfold match_stage.
  change (collection db "users") with (map doc_of_user (users db)).
  rewrite filter_map_comm, !map_map.
  destruct username as [s|]; reflexivity.
Qed.

Lemma profile_doc_fields (db : DB) (viewer : option ObjectId) (u : UserRecord) :
  let subs := filter (fun s => N.eqb (user_id u) (channel s)) (subscriptions db) in
  let subd := filter (fun s => N.eqb (user_id u) (subscriber s)) (subscriptions db) in
  let c0 := profile_doc db viewer (doc_of_user u) in
  get "subscribersCount" c0 = Some (VNum (Z.of_nat (List.length subs)))
  /\ get "channelsSubscribedToCount" c0 = Some (VNum (Z.of_nat (List.length subd)))
  /\ get "isSubscribed" c0
     = Some (VBool (existsb (value_eqb (to_bson (js_id viewer)))
                            (map (fun s => VId (subscriber s)) subs))).
Proof.
  intros subs subd c0. subst c0 subs subd. unfold profile_doc, lookup_doc.
  destruct u as [i un em fn pw av ci rt wh].
  destruct ci, rt; cbn -[filter collection lookup_match].
  all: rewrite ?subscriptions_of_channel, ?subscriptions_of_subscriber.
  all: rewrite subscriber_values, !length_map.
  all: repeat split; try reflexivity.
  all: now destruct (existsb _ _).
Qed.

Lemma viewer_among_subscribers (viewer : option ObjectId)
    (subs : list SubscriptionRecord) :
  existsb (value_eqb (to_bson (js_id viewer)))
          (map (fun s => VId (subscriber s)) subs) = true
  <-> exists v s, viewer = Some v /\ In s subs /\ subscriber s = v.
Proof.
  rewrite existsb_exists. split.
  - intros (x & Hx & Heq). apply in_map_iff in Hx.
    destruct Hx as (s & <- & Hs).
    destruct viewer as [v|]; cbn in Heq; [|discriminate].
    apply N.eqb_eq in Heq. exists v, s. auto.
  - intros (v & s & -> & Hs & Hv).
    exists (VId (subscriber s)). split.
    + apply in_map_iff. now exists s.
    + cbn. apply N.eqb_eq. now symmetry.
Qed.

Lemma getUserChannelProfile_handler_run (req : Request) (db : DB)
    (name : string) :
  assoc "username" (params req) = Some name ->
  trim name <> "" ->
  getUserChannelProfile_handler req db
  = ([Aggregate "User"],
     match
       map (profile_doc db (user req))
         (map doc_of_user
            (filter (fun u => String.eqb (user_username u) (toLowerCase name))
                    (users db)))
     with
     | [] => Thrown (ApiError 404 "Channel not found")
     | c0 :: _ =>
         Returned
           {| status := 200;
              json := NewApiResponse (VNum 200) (VDoc c0)
                        (VStr "User Channel Profile Fetched Successfully") |}
     end).
Proof.
  intros Hname Hne. unfold getUserChannelProfile_handler.
  assert (Ht : truthy (js_str (option_map trim (assoc "username" (params req))))
               = true)
    by (apply truthy_trimmed; now exists name).
  rewrite Ht. cbn [negb]. unfold bind, aggregate.
  cbn [collectionName User modelName].
  rewrite channel_profile_pipeline_run, Hname.
  now destruct (map _ _).
Qed.

(** Claim C5.  For the user a (non-blank) target username resolves to, the profile
    carries the number of subscription edges whose channel is this user,
    the number of edges whose subscriber is this user, and an isSubscribed
    flag that is true exactly when the viewer's id is the subscriber of one
    of the channel's edges, hence false for a request without a viewer. *)
Theorem channel_profile_counts (req : Request) (db : DB) (name : string)
    (u : UserRecord) :
  assoc "username" (params req) = Some name ->
  trim name <> "" ->
  find (fun u => String.eqb (user_username u) (toLowerCase name)) (users db)
    = Some u ->
  exists (c0 : doc) (b : bool),
    getUserChannelProfile_handler req db
      = ([Aggregate "User"],
         Returned
           {| status := 200;
              json := NewApiResponse (VNum 200) (VDoc c0)
                        (VStr "User Channel Profile Fetched Successfully") |})
    /\ get "subscribersCount" c0
       = Some (VNum (Z.of_nat (List.length
                 (filter (fun s => N.eqb (channel s) (user_id u))
                         (subscriptions db)))))
    /\ get "channelsSubscribedToCount" c0
       = Some (VNum (Z.of_nat (List.length
                 (filter (fun s => N.eqb (subscriber s) (user_id u))
                         (subscriptions db)))))
    /\ get "isSubscribed" c0 = Some (VBool b)
    /\ (b = true <->
        exists v s, user req = Some v /\ In s (subscriptions db)
                    /\ channel s = user_id u /\ subscriber s = v)
    /\ (user req = None -> b = false).
Proof.
  intros Hname Hne Hfind.
  rewrite (getUserChannelProfile_handler_run req db Hname Hne).
  destruct (find_filter_head _ _ Hfind) as (rest & ->). cbn [map].
  destruct (profile_doc_fields db (user req) u) as (Hc & Hd & Hs).
  eexists. eexists. split; [reflexivity|].
  rewrite Hc, Hd, Hs.
  rewrite (filter_ext (fun s => N.eqb (channel s) (user_id u))
                      (fun s => N.eqb (user_id u) (channel s)))
    by (intros s; apply N.eqb_sym).
  rewrite (filter_ext (fun s => N.eqb (subscriber s) (user_id u))
                      (fun s => N.eqb (user_id u) (subscriber s)))
    by (intros s; apply N.eqb_sym).
  repeat split.
  - intros Hb. apply viewer_among_subscribers in Hb.
    destruct Hb as (v & s & Hv & Hin & Hsub).
    apply filter_In in Hin. destruct Hin as (Hin & Hch).
    apply N.eqb_eq in Hch. exists v, s. auto.
  - intros (v & s & Hv & Hin & Hch & Hsub).
    apply viewer_among_subscribers. exists v, s. repeat split; auto.
    apply filter_In. split; [exact Hin|]. apply N.eqb_eq. now symmetry.
  - intros Hnone.
    destruct (existsb _ _) eqn:He; [|reflexivity].
    apply viewer_among_subscribers in He.
    destruct He as (v & s & Hv & _). congruence.
Qed.

Lemma project_doc_only_fields (incl : list string) (d : doc) :
  only_fields ("_id" :: incl) (project_doc incl d).
Proof.
  intros k Hk. unfold keys, project_doc in Hk. apply in_map_iff in Hk.
  destruct Hk as ((k', v) & <- & Hin). apply filter_In in Hin.
  destruct Hin as (_ & Hp). cbn in *. unfold projected in Hp.
  apply orb_true_iff in Hp. destruct Hp as [Hp|Hp].
  - left. apply String.eqb_eq in Hp. now symmetry.
  - right. apply existsb_exists in Hp. destruct Hp as (x & Hx & Heq).
    apply String.eqb_eq in Heq. now subst.
Qed.

Lemma get_project_doc_excluded (incl : list string) (k : string) (d : doc) :
  projected incl k = false -> get k (project_doc incl d) = None.
Proof.
  intros Hk. induction d as [|(k', v) d IH]; cbn; [reflexivity|].
  destruct (projected incl k') eqn:Hk'; cbn; [|exact IH].
  destruct (String.eqb k k') eqn:Heq; [|exact IH].
  apply String.eqb_eq in Heq. subst. congruence.
Qed.

(** Claim C6, as the code has it.  A successful profile carries no field beyond
    _id and the eight projected ones, and none of password, refreshToken
    and watchHistory. *)
Theorem channel_profile_projection (req : Request) (db : DB)
    (t : list StoreCall) (r : Response) :
  getUserChannelProfile_handler req db = (t, Returned r) ->
  exists c0 : doc,
    r = {| status := 200;
           json := NewApiResponse (VNum 200) (VDoc c0)
                     (VStr "User Channel Profile Fetched Successfully") |}
    /\ only_fields ("_id" :: profile_fields) c0
    /\ get "password" c0 = None
    /\ get "refreshToken" c0 = None
    /\ get "watchHistory" c0 = None.
Proof.
  intros Hrun.
  destruct (truthy (js_str (option_map trim (assoc "username" (params req)))))
    eqn:Ht.
  - apply truthy_trimmed in Ht. destruct Ht as (name & Hname & Hne).
    rewrite (getUserChannelProfile_handler_run req db Hname Hne) in Hrun.
    destruct (filter _ (users db)) as [|u rest]; cbn [map] in Hrun;
      [discriminate|].
    injection Hrun as _ <-. eexists. split; [reflexivity|].
    unfold profile_doc. split; [apply project_doc_only_fields|].
    repeat split; now apply get_project_doc_excluded.
  - unfold getUserChannelProfile_handler in Hrun. rewrite Ht in Hrun.
    discriminate.
Qed.

(** *** The watch history *)

Lemma get_set_same (k : string) (v : value) (d : doc) :
  get k (set k v d) = Some v.
Proof.
  induction d as [|(k', v') d IH]; cbn.
  - now rewrite String.eqb_refl.
  - destruct (String.eqb k k') eqn:Heq; cbn.
    + now rewrite String.eqb_refl.
    + now rewrite Heq.
Qed.

Lemma find_hd_filter {A : Type} (p : A -> bool) (l : list A) :
  find p l = hd_error (filter p l).
Proof.
  induction l as [|a l IH]; cbn; [reflexivity|]. now destruct (p a).
Qed.

Lemma get_watchHistory (u : UserRecord) :
  get "watchHistory" (doc_of_user u)
  = Some (VArr (map VId (user_watchHistory u))).
Proof.
  unfold doc_of_user.
  now destruct (user_coverImage u), (user_refreshToken u).
Qed.

Lemma owner_view_projected (o : UserRecord) :
  project_doc ["fullName"; "username"; "avatar"] (doc_of_user o)
  = owner_view o.
Proof.
  unfold doc_of_user.
  now destruct (user_coverImage o), (user_refreshToken o).
Qed.

Lemma owner_pipeline_doc (db : DB) (v : VideoRecord) :
  addFields_doc [("owner", first_expr "owner")]
    (lookup_doc db "users" "owner" "_id" "owner"
       [project_stage ["fullName"; "username"; "avatar"]] (doc_of_video v))
  = enriched db v.
Proof.
  unfold lookup_doc, enriched, user_by_id.
  change (collection db "users") with (map doc_of_user (users db)).
  rewrite filter_map_comm. cbn [run_pipeline fold_left].
  unfold project_stage. rewrite find_hd_filter.
  rewrite (filter_ext (fun u => N.eqb (user_id u) (owner v))
             (fun a => lookup_match (get "owner" (doc_of_video v))
                                    (get "_id" (doc_of_user a)))).
  - destruct (filter _ (users db)) as [|o rest]; cbn [map hd_error].
    + reflexivity.
    + rewrite owner_view_projected. reflexivity.
  - intros a. cbn. apply N.eqb_sym.
Qed.

Lemma owner_pipeline_run (db : DB) (vs : list VideoRecord) :
  run_pipeline owner_pipeline db (map doc_of_video vs)
  = map (enriched db) vs.
Proof.
  unfold owner_pipeline, run_pipeline. cbn [fold_left].
  unfold addFields_stage, lookup_stage. rewrite !map_map.
  apply map_ext. intros v. apply owner_pipeline_doc.
Qed.

Lemma videos_of_history (db : DB) (u : UserRecord) :
  filter (fun f => lookup_match (get "watchHistory" (doc_of_user u))
                                (get "_id" f))
         (collection db "videos")
  = map doc_of_video (watched db (user_watchHistory u)).
Proof.
  change (collection db "videos") with (map doc_of_video (videos db)).
  rewrite filter_map_comm, get_watchHistory. unfold watched.
  f_equal. apply filter_ext. intros v. cbn.
  induction (user_watchHistory u) as [|i l IH]; cbn; [reflexivity|].
  now rewrite IH, N.eqb_sym.
Qed.

Lemma getWatchHistory_handler_run (req : Request) (db : DB) (uid : ObjectId) :
  user req = Some uid ->
  getWatchHistory_handler req db
  = ([Aggregate "User"],
     Returned
       {| status := 200;
          json := NewApiResponse (VNum 200) (VArr (history_of db uid))
                    (VStr "Watch History Fetched Successfully") |}).
Proof.
  intros Hu. unfold getWatchHistory_handler. rewrite Hu.
  unfold bind, aggregate, watch_history_pipeline, run_pipeline.
  cbn [fold_left collectionName User modelName newObjectId].
  unfold match_stage, lookup_stage.
  change (collection db "users") with (map doc_of_user (users db)).
  rewrite filter_map_comm, map_map.
  unfold history_of, user_by_id. rewrite find_hd_filter.
  change (filter (fun u => N.eqb (user_id u) uid) (users db))
    with (filter (fun a => eq_match (get "_id" (doc_of_user a))
                                    (to_bson (VId uid))) (users db)).
  destruct (filter _ (users db)) as [|u rest]; cbn [map hd_error first_field].
  - reflexivity.
  - unfold lookup_doc at 1. rewrite get_set_same, videos_of_history.
    rewrite owner_pipeline_run, map_map. reflexivity.
Qed.

Lemma enriched_owner (db : DB) (v : VideoRecord) :
  get "owner" (enriched db v)
  = option_map (fun o => VDoc (owner_view o)) (user_by_id db (owner v)).
Proof. unfold enriched. now destruct (user_by_id db (owner v)). Qed.

Lemma owner_view_fields (o : UserRecord) :
  only_fields ["_id"; "fullName"; "username"; "avatar"] (owner_view o)
  /\ get "password" (owner_view o) = None
  /\ get "email" (owner_view o) = None.
Proof.
  repeat split. intros k Hk. cbn in Hk |- *.
  intuition.
Qed.

(** Claim C3, as the code has it.  The history of the authenticated user comes
    back as the videos its watchHistory list names, each enriched with its
    owner, in the order in which the videos collection holds them; an
    owner sub-object has no field beyond _id, fullName, username and
    avatar, so neither password nor email. *)
Theorem watch_history_in_store_order (req : Request) (db : DB)
    (uid : ObjectId) (u : UserRecord) :
  user req = Some uid ->
  user_by_id db uid = Some u ->
  getWatchHistory_handler req db
    = ([Aggregate "User"],
       Returned
         {| status := 200;
            json := NewApiResponse (VNum 200)
                      (VArr (map (fun v => VDoc (enriched db v))
                                 (watched db (user_watchHistory u))))
                      (VStr "Watch History Fetched Successfully") |})
  /\ (forall v o,
        get "owner" (enriched db v) = Some (VDoc o) ->
        only_fields ["_id"; "fullName"; "username"; "avatar"] o
        /\ get "password" o = None
        /\ get "email" o = None).
Proof.
  intros Hreq Hu. split.
  - rewrite (getWatchHistory_handler_run req db Hreq).
    unfold history_of. now rewrite Hu.
  - intros v o Ho. rewrite enriched_owner in Ho.
    destruct (user_by_id db (owner v)) as [o'|]; [|discriminate].
    injection Ho as <-. apply owner_view_fields.
Qed.

(** Claim C10.  An authenticated request for the watch history is always
    answered; with an empty sequence when the user id resolves to no user
    or the user's history is empty, and otherwise with one entry per
    watched video, where an entry whose owner resolves to no user has no
    owner field. *)
Theorem watch_history_never_fails (req : Request) (db : DB) (uid : ObjectId) :
  user req = Some uid ->
  exists entries : list value,
    getWatchHistory_handler req db
      = ([Aggregate "User"],
         Returned
           {| status := 200;
              json := NewApiResponse (VNum 200) (VArr entries)
                        (VStr "Watch History Fetched Successfully") |})
    /\ (user_by_id db uid = None -> entries = [])
    /\ (forall u, user_by_id db uid = Some u ->
                  user_watchHistory u = [] -> entries = [])
    /\ (forall u, user_by_id db uid = Some u ->
           entries = map (fun v => VDoc (enriched db v))
                         (watched db (user_watchHistory u))
           /\ forall v, user_by_id db (owner v) = None ->
                        get "owner" (enriched db v) = None).
Proof.
  intros Hreq. exists (history_of db uid).
  split; [now apply getWatchHistory_handler_run|].
  unfold history_of. split; [now intros ->|]. split.
  - intros u -> ->. unfold watched. cbn [existsb].
    now rewrite filter_none.
  - intros u ->. split; [reflexivity|].
    intros v Hv. now rewrite enriched_owner, Hv.
Qed.

(** *** The dashboard *)

Lemma videos_by_channel_nonstrict (db : DB) (c : value) :
  strictQuery = false ->
  value_eqb (to_bson c) VNull = false ->
  matching db Video [("channel", QEq c)] = [].
Proof.
  intros Hstrict Hc. unfold matching. cbn -[filter collection].
  rewrite Hstrict.
  change (collection db "videos") with (map doc_of_video (videos db)).
  rewrite filter_map_comm. rewrite filter_none; [reflexivity|].
  intros v _. cbn. now rewrite Hc.
Qed.

Lemma subscriptions_by_channel (db : DB) (s : string) :
  matching db Subscription [("channel", QEq (VStr s))]
  = map doc_of_subscription
        (filter (fun e => N.eqb (channel e) (parseObjectId (VStr s)))
                (subscriptions db)).
Proof.
  unfold matching. cbn -[filter collection].
  change (collection db "subscriptions")
    with (map doc_of_subscription (subscriptions db)).
  rewrite filter_map_comm. f_equal. apply filter_ext. intros e. cbn.
  apply andb_true_r.
Qed.

Lemma likes_of_no_video (db : DB) :
  matching db Like [("resource", QIn []); ("type", QEq (VStr "video"))] = [].
Proof.
  unfold matching. cbn -[filter collection].
  apply filter_none. intros d _. reflexivity.
Qed.

(** With [strictQuery] off, the filter on [channel] reaches the store and
    no video matches it. *)
Lemma getChannelStats_handler_nonstrict (req : Request) (db : DB) (s : string) :
  strictQuery = false ->
  assoc "channelId" (params req) = Some s ->
  isValidObjectId (VStr s) = true ->
  getChannelStats_handler req db
  = ([CountDocuments "Video"; CountDocuments "Subscription";
      Distinct "Video"; CountDocuments "Like"; Aggregate "Video"],
     Returned
       {| status := 200;
          json := NewApiResponse (VNum 200)
                    (VStr "Channel stats fetched successfully")
                    (VDoc [("totalVideos", VNum 0);
                           ("totalSubscribers",
                            VNum (Z.of_nat (List.length
                              (filter (fun e => N.eqb (channel e)
                                                  (parseObjectId (VStr s)))
                                      (subscriptions db)))));
                           ("totalLikes", VNum 0);
                           ("totalViews", VNum 0)]) |}).
Proof.
  intros Hstrict Hs Hvalid. unfold getChannelStats_handler.
  rewrite Hs. cbn [js_str]. rewrite Hvalid. cbn [negb].
  unfold bind, countDocuments, find_distinct, aggregate.
  rewrite (videos_by_channel_nonstrict db (VStr s) Hstrict eq_refl).
  rewrite subscriptions_by_channel, length_map.
  cbn [field_values flat_map dedup]. rewrite likes_of_no_video.
  cbn [run_pipeline fold_left collectionName Video modelName].
  unfold match_stage.
  change (collection db "videos") with (map doc_of_video (videos db)).
  rewrite filter_map_comm.
  rewrite (filter_none _ (videos db)) by (intros v _; reflexivity).
  reflexivity.
Qed.

Lemma getChannelVideos_handler_nonstrict (req : Request) (db : DB) (s : string) :
  strictQuery = false ->
  assoc "channelId" (params req) = Some s ->
  isValidObjectId (VStr s) = true ->
  0 <= (default_to 1 (assoc "page" (query req)) - 1)
       * default_to 10 (assoc "limit" (query req)) ->
  getChannelVideos_handler req db
  = ([Find "Video"],
     Returned
       {| status := 200;
          json := NewApiResponse (VNum 200)
                    (VStr "Channel videos fetched successfully")
                    (VArr []) |}).
Proof.
  intros Hstrict Hs Hvalid Hskip. unfold getChannelVideos_handler.
  rewrite Hs. cbn [js_str]. rewrite Hvalid. cbn [negb].
  unfold bind, find_skip_limit_sort.
  rewrite (videos_by_channel_nonstrict db (VStr s) Hstrict eq_refl).
  destruct (Z.ltb_spec ((default_to 1 (assoc "page" (query req)) - 1)
                        * default_to 10 (assoc "limit" (query req))) 0);
    [lia|].
  cbn [sort_desc fold_right]. rewrite skipn_nil.
  unfold limit_docs. rewrite firstn_nil.
  now destruct (_ =? 0).
Qed.
End Properties.

(** ** The handlers on the small store *)

Lemma invalid_channelId_rejected_witness :
  @getChannelStats_handler (ascii_library false)
     (a_request [("channelId", "not-an-id")] [] None) example_db
    = ([], Thrown (ApiError 400 "Invalid channel ID"))
  /\ @getChannelVideos_handler (ascii_library false)
       (a_request [("channelId", "not-an-id")] [] None) example_db
     = ([], Thrown (ApiError 400 "Invalid channel ID")).
Proof.
  apply (@invalid_channelId_rejected (ascii_library false)
           (a_request [("channelId", "not-an-id")] [] None) example_db).
  reflexivity.
Defined.

Lemma channel_profile_errors_witness :
  @getUserChannelProfile_handler (ascii_library false)
     (a_request [("username", "   ")] [] None) example_db
    = ([], Thrown (ApiError 400 "Username is required to get Profile"))
  /\ @getUserChannelProfile_handler (ascii_library false)
       (a_request [("username", "Dave")] [] None) example_db
     = ([Aggregate "User"], Thrown (ApiError 404 "Channel not found")).
Proof.
  split.
  - apply (proj1 (@channel_profile_errors (ascii_library false)
                    (a_request [("username", "   ")] [] None) example_db)).
    intros s [= <-]. reflexivity.
  - apply (proj2 (@channel_profile_errors (ascii_library false)
                    (a_request [("username", "Dave")] [] None) example_db)
                 "Dave").
    + reflexivity.
    + vm_compute. discriminate.
    + intros u [<-|[<-|[<-|[]]]]; vm_compute; discriminate.
Defined.

Lemma channel_profile_counts_witness :
  exists c0 : doc,
    second_of (@getUserChannelProfile_handler (ascii_library false)
                 (a_request [("username", "Alice")] [] (Some 2%N)) example_db)
      = Some (VDoc c0)
    /\ get "subscribersCount" c0 = Some (VNum 2)
    /\ get "channelsSubscribedToCount" c0 = Some (VNum 1)
    /\ get "isSubscribed" c0 = Some (VBool true).
Proof.
  destruct (@channel_profile_counts (ascii_library false)
              (a_request [("username", "Alice")] [] (Some 2%N)) example_db
              "Alice" alice)
    as (c0 & b & Hrun & Hc & Hd & Hs & Hb & _).
  - reflexivity.
  - vm_compute. discriminate.
  - reflexivity.
  - exists c0. rewrite Hrun, Hc, Hd, Hs. repeat split.
    f_equal. f_equal. apply Hb.
    exists 2%N, (an_edge 21 2 1). repeat split. now left.
Defined.

Lemma channel_profile_projection_witness :
  let c0 := profile_doc example_db None (doc_of_user alice) in
  only_fields ("_id" :: profile_fields) c0
  /\ get "password" c0 = None
  /\ get "refreshToken" c0 = None
  /\ get "watchHistory" c0 = None.
Proof.
  destruct (@channel_profile_projection (ascii_library false)
              (a_request [("username", "Alice")] [] None) example_db
              [Aggregate "User"]
              {| status := 200;
                 json := NewApiResponse (VNum 200)
                           (VDoc (profile_doc example_db None
                                    (doc_of_user alice)))
                           (VStr "User Channel Profile Fetched Successfully") |}
              eq_refl)
    as (c0 & [= <-] & Hfields).
  exact Hfields.
Defined.

Lemma channel_profile_fields_counterexample :
  exists c0 : doc,
    second_of (@getUserChannelProfile_handler (ascii_library false)
                 (a_request [("username", "Alice")] [] None) example_db)
      = Some (VDoc c0)
    /\ ~ only_fields profile_fields c0.
Proof.
  eexists. split; [reflexivity|].
  intros Hall. specialize (Hall "_id" (or_introl eq_refl)).
  cbn in Hall. intuition discriminate.
Qed.

Lemma watch_history_in_store_order_witness :
  second_of (@getWatchHistory_handler (ascii_library false)
               (a_request [] [] (Some 1%N)) example_db)
  = Some (VArr [VDoc (enriched example_db (a_video 11 2 5 100));
                VDoc (enriched example_db (a_video 13 3 7 300))]).
Proof.
  rewrite (proj1 (@watch_history_in_store_order (ascii_library false)
                    (a_request [] [] (Some 1%N)) example_db 1%N alice
                    eq_refl eq_refl)).
  reflexivity.
Defined.

Lemma watch_history_order_counterexample :
  exists entries : list doc,
    second_of (@getWatchHistory_handler (ascii_library false)
                 (a_request [] [] (Some 1%N)) example_db)
      = Some (VArr (map VDoc entries))
    /\ field_values "_id" entries <> map VId (user_watchHistory alice)
    /\ exists e o,
         In e entries /\ get "owner" e = Some (VDoc o)
         /\ ~ only_fields ["fullName"; "username"; "avatar"] o.
Proof.
  exists [enriched example_db (a_video 11 2 5 100);
          enriched example_db (a_video 13 3 7 300)].
  split; [reflexivity|]. split; [discriminate|].
  eexists. eexists. split; [now left|]. split; [reflexivity|].
  intros Hall. specialize (Hall "_id" (or_introl eq_refl)).
  cbn in Hall. intuition discriminate.
Qed.

Lemma watch_history_never_fails_witness :
  second_of (@getWatchHistory_handler (ascii_library false)
               (a_request [] [] (Some 99%N)) example_db)
  = Some (VArr []).
Proof.
  destruct (@watch_history_never_fails (ascii_library false)
              (a_request [] [] (Some 99%N)) example_db 99%N eq_refl)
    as (entries & Hrun & Hnone & _).
  rewrite Hrun, (Hnone eq_refl). reflexivity.
Defined.

(** Claim C1.  On the small store bob owns one video, liked once as a video; with
    [strictQuery] off the handler counts no video and no like, with
    [strictQuery] on it counts the videos and video likes of every
    channel. *)
Theorem channel_stats_counts_on_example :
  let req := a_request [("channelId", bob_id)] [] None in
  List.length (videos_owned example_db 2) = 1%nat
  /\ List.length (video_likes_of example_db 2) = 1%nat
  /\ stat "totalVideos"
       (@getChannelStats_handler (ascii_library false) req example_db)
     = Some (VNum 0)
  /\ stat "totalLikes"
       (@getChannelStats_handler (ascii_library false) req example_db)
     = Some (VNum 0)
  /\ stat "totalVideos"
       (@getChannelStats_handler (ascii_library true) req example_db)
     = Some (VNum 2)
  /\ stat "totalLikes"
       (@getChannelStats_handler (ascii_library true) req example_db)
     = Some (VNum 2).
Proof. repeat split. Qed.

(** Claim C8.  Bob's one video has five views; the handler reports zero views for
    bob's channel, whatever [strictQuery] is. *)
Theorem channel_stats_views_on_example :
  let req := a_request [("channelId", bob_id)] [] None in
  views_of example_db 2 = 5
  /\ stat "totalViews"
       (@getChannelStats_handler (ascii_library false) req example_db)
     = Some (VNum 0)
  /\ stat "totalViews"
       (@getChannelStats_handler (ascii_library true) req example_db)
     = Some (VNum 0).
Proof. repeat split. Qed.

(** Claim C4.  Page 2 of size 5 of bob's seven videos is the videos created at 200
    and 100; the handler answers with no video when [strictQuery] is off,
    and with three when it is on. *)
Theorem channel_videos_page_two_on_example :
  let req := a_request [("channelId", bob_id)] [("page", 2); ("limit", 5)] None in
  page_of seven_videos_db 2 2 5
    = map doc_of_video [a_video 42 2 0 200; a_video 41 2 0 100]
  /\ third_of (@getChannelVideos_handler (ascii_library false) req
                 seven_videos_db)
     = Some (VArr [])
  /\ third_of (@getChannelVideos_handler (ascii_library true) req
                 seven_videos_db)
     = Some (VArr (map VDoc (map doc_of_video
                      [a_video 43 2 0 300; a_video 42 2 0 200;
                       a_video 41 2 0 100]))).
Proof. repeat split. Qed.

(** * Further properties of the handlers *)

Section MoreProperties.
Context {lib : Library}.

(** Property X1.  The profile lookup ignores the case of the target username: two
    non-blank usernames with the same lower-case form, asked by the same
    viewer, get the same answer. *)
Theorem channel_profile_case_insensitive (req1 req2 : Request) (db : DB)
    (n1 n2 : string) :
  assoc "username" (params req1) = Some n1 ->
  assoc "username" (params req2) = Some n2 ->
  trim n1 <> "" ->
  trim n2 <> "" ->
  toLowerCase n1 = toLowerCase n2 ->
  user req1 = user req2 ->
  getUserChannelProfile_handler req1 db = getUserChannelProfile_handler req2 db.
Proof.
  intros H1 H2 Hn1 Hn2 Hlow Hviewer.
  rewrite (getUserChannelProfile_handler_run req1 db H1 Hn1).
  rewrite (getUserChannelProfile_handler_run req2 db H2 Hn2).
  now rewrite Hlow, Hviewer.
Qed.


Lemma limit_docs_length (n : Z) (l : list doc) :
  0 < n -> (Z.of_nat (List.length (limit_docs n l)) <= n)%Z.
Proof.
  intros Hn. unfold limit_docs.
  destruct (Z.eqb_spec n 0); [lia|].
  rewrite length_firstn. rewrite Z.abs_eq by lia. lia.
Qed.

(** Property X3.  With a positive limit (10 when the query gives none), the channel videos
    answer never carries more videos than the limit. *)
Theorem channel_videos_at_most_limit (req : Request) (db : DB)
    (t : list StoreCall) (r : Response) :
  0 < default_to 10 (assoc "limit" (query req)) ->
  getChannelVideos_handler req db = (t, Returned r) ->
  exists found : list value,
    json r = NewApiResponse (VNum 200)
               (VStr "Channel videos fetched successfully") (VArr found)
    /\ Z.of_nat (List.length found) <= default_to 10 (assoc "limit" (query req)).
Proof.
  intros Hlimit. unfold getChannelVideos_handler.
  destruct (negb _); [discriminate|].
  unfold bind, find_skip_limit_sort.
  destruct (_ <? 0); [discriminate|].
  intros [= _ <-]. eexists. split; [reflexivity|].
  rewrite length_map. now apply limit_docs_length.
Qed.

Lemma NoDup_map_injective {A B : Type} (f : A -> B) (l : list A) :
  (forall a b, f a = f b -> a = b) -> NoDup l -> NoDup (map f l).
Proof.
  intros Hinj Hl. induction Hl as [|a l Hnin Hl IH]; cbn; constructor.
  - intros Hin. apply in_map_iff in Hin. destruct Hin as (b & Hb & Hin).
    apply Hinj in Hb. now subst.
  - exact IH.
Qed.

Lemma enriched_id (db : DB) (v : VideoRecord) :
  get "_id" (enriched db v) = Some (VId (video_id v)).
Proof. unfold enriched. now destruct (user_by_id db (owner v)). Qed.

Lemma entry_ids (db : DB) (vs : list VideoRecord) :
  field_values "_id" (map (enriched db) vs) = map (fun v => VId (video_id v)) vs.
Proof.
  induction vs as [|v vs IH]; [reflexivity|].
  cbn [map field_values flat_map]. rewrite enriched_id.
  cbn [app]. f_equal. exact IH.
Qed.

(** Property X4.  The watch history names each video at most once, however often the
    watchHistory list names it, and only videos the list names: when the
    stored videos have distinct ids, so have the entries, and each entry's
    id is in the user's list. *)
Theorem watch_history_no_repeats (req : Request) (db : DB) (uid : ObjectId) :
  user req = Some uid ->
  NoDup (map video_id (videos db)) ->
  exists entries : list doc,
    second_of (getWatchHistory_handler req db) = Some (VArr (map VDoc entries))
    /\ NoDup (field_values "_id" entries)
    /\ forall i, In (VId i) (field_values "_id" entries) ->
         exists u, user_by_id db uid = Some u /\ In i (user_watchHistory u).
Proof.
  intros Hreq Hnodup.
  rewrite (getWatchHistory_handler_run req db Hreq). cbn [second_of].
  unfold history_of. destruct (user_by_id db uid) as [u|].
  - exists (map (enriched db) (watched db (user_watchHistory u))).
    split; [now rewrite map_map|]. rewrite entry_ids. split.
    + rewrite <- (map_map video_id VId). unfold watched.
      apply NoDup_map_injective; [intros a b [= Hab]; exact Hab|].
      clear -Hnodup. induction (videos db) as [|v vs IH]; cbn; [constructor|].
      inversion Hnodup as [|? ? Hnin Hrest]; subst.
      destruct (existsb _ _).
      * cbn. constructor; [|now apply IH].
        intros Hin. apply Hnin. apply in_map_iff in Hin.
        destruct Hin as (w & Hw & Hin). apply filter_In in Hin.
        apply in_map_iff. exists w. tauto.
      * now apply IH.
    + intros i Hi. apply in_map_iff in Hi. destruct Hi as (v & [= <-] & Hv).
      exists u. split; [reflexivity|]. apply filter_In in Hv.
      destruct Hv as (_ & Hv). apply existsb_exists in Hv.
      destruct Hv as (j & Hj & Heq). apply N.eqb_eq in Heq. now subst.
  - exists []. repeat split; [constructor | intros i []].
Qed.
End MoreProperties.

(** ** The public id of an image *)

Lemma split_on_nonempty (sep : ascii) (s : string) : split_on sep s <> [].
Proof.
  destruct s as [|c s]; cbn; [discriminate|].
  destruct (Ascii.eqb c sep); [discriminate|].
  destruct (split_on sep s); discriminate.
Qed.

Lemma split_on_without (sep : ascii) (s : string) :
  has_char sep s = false -> split_on sep s = [s].
Proof.
  induction s as [|c s IH]; cbn; [reflexivity|].
  intros Hs. apply orb_false_iff in Hs. destruct Hs as (Hc & Hs).
  rewrite Hc, (IH Hs). reflexivity.
Qed.

Lemma split_on_first (sep : ascii) (a b : string) :
  has_char sep a = false ->
  split_on sep (a ++ String sep b)%string = a :: split_on sep b.
Proof.
  induction a as [|c a IH]; cbn.
  - now rewrite Ascii.eqb_refl.
  - intros Ha. apply orb_false_iff in Ha. destruct Ha as (Hc & Ha).
    rewrite Hc, (IH Ha). reflexivity.
Qed.

Lemma split_on_last (sep : ascii) (a b : string) :
  last (split_on sep (a ++ String sep b)%string) EmptyString
  = last (split_on sep b) EmptyString.
Proof.
  assert (Hshape : exists x rest,
             split_on sep (a ++ String sep b)%string = x :: rest
             /\ rest <> []
             /\ last rest EmptyString = last (split_on sep b) EmptyString).
  { induction a as [|c a IH]; cbn.
    - rewrite Ascii.eqb_refl. eexists. eexists.
      split; [reflexivity|]. split; [apply split_on_nonempty | reflexivity].
    - destruct IH as (x & rest & -> & Hrest & Hlast).
      destruct (Ascii.eqb c sep).
      + eexists. eexists. split; [reflexivity|]. split; [discriminate|].
        destruct rest; [contradiction | exact Hlast].
      + eexists. eexists. split; [reflexivity|]. split; assumption. }
  destruct Hshape as (x & rest & -> & Hrest & Hlast).
  destruct rest; [contradiction | exact Hlast].
Qed.

Lemma split_on_pieces (sep c : ascii) (s : string) :
  (c = sep \/ has_char c s = false) ->
  Forall (fun p => has_char c p = false) (split_on sep s).
Proof.
  intros Hc. induction s as [|c' s IH]; cbn.
  - constructor; [reflexivity | constructor].
  - destruct (Ascii.eqb c' sep) eqn:Hsep.
    + constructor; [reflexivity|]. apply IH.
      destruct Hc as [Hc|Hc]; [now left|].
      right. cbn in Hc. now apply orb_false_iff in Hc.
    + assert (Hc' : Ascii.eqb c' c = false /\ (c = sep \/ has_char c s = false)).
      { destruct Hc as [->|Hc]; [now split; [|left]|].
        cbn in Hc. apply orb_false_iff in Hc. destruct Hc. split; [|right]; auto. }
      destruct Hc' as (Hne & Hrest). specialize (IH Hrest).
      destruct (split_on sep s) as [|p ps]; constructor; cbn.
      * now rewrite Hne.
      * constructor.
      * inversion IH; subst. now rewrite Hne.
      * now inversion IH.
Qed.

Lemma Forall_last {A : Type} (P : A -> Prop) (l : list A) (d : A) :
  l <> [] -> Forall P l -> P (last l d).
Proof.
  induction l as [|a l IH]; [contradiction|]. intros _ Hall.
  inversion Hall as [|? ? Ha Hl]; subst.
  destruct l as [|b l]; [exact Ha|]. apply IH; [discriminate | exact Hl].
Qed.

(** Property X5.  For the URL of a file [name.ext] under any path, the public id handed to
    Cloudinary is [name]: the last piece after a slash, up to its first
    dot. *)
Theorem publicId_of_url (dir name ext : string) :
  has_char "/" name = false ->
  has_char "." name = false ->
  has_char "/" ext = false ->
  publicId_of (dir ++ String "/" (name ++ String "." ext))%string = name.
Proof.
  intros Hslash Hdot Hext. unfold publicId_of.
  rewrite split_on_last, (split_on_without "/").
  - cbn [last]. now rewrite split_on_first.
  - clear -Hslash Hext. induction name as [|c name IH]; cbn in *.
    + exact Hext.
    + apply orb_false_iff in Hslash. destruct Hslash as (-> & Hslash).
      now apply IH.
Qed.

(** Property X6.  The public id never holds a slash or a dot, whatever the URL. *)
Theorem publicId_of_plain (image : string) :
  has_char "/" (publicId_of image) = false
  /\ has_char "." (publicId_of image) = false.
Proof.
  unfold publicId_of.
  set (file := last (split_on "/" image) EmptyString).
  assert (Hfile : has_char "/" file = false).
  { apply (Forall_last (P := fun p => has_char "/" p = false));
      [apply split_on_nonempty | apply split_on_pieces; now left]. }
  pose proof (split_on_nonempty "." file) as Hne.
  pose proof (split_on_pieces (sep := ".") (c := "/") file (or_intror Hfile))
    as Hslash.
  pose proof (split_on_pieces (sep := ".") (c := ".") file (or_introl eq_refl))
    as Hdot.
  destruct (split_on "." file) as [|p ps]; [contradiction|].
  cbn [hd]. inversion Hslash; inversion Hdot; subst. split; assumption.
Qed.

(** ** The account handlers *)

Section AccountProperties.
Context {lib : Library} {svc : Services}.

Lemma update_first_absent (i : ObjectId) (f : UserRecord -> UserRecord)
    (us : list UserRecord) :
  find (fun u => N.eqb (user_id u) i) us = None -> update_first i f us = us.
Proof.
  induction us as [|u us IH]; cbn; [reflexivity|].
  destruct (N.eqb (user_id u) i); [discriminate|].
  intros Hnone. now rewrite IH.
Qed.

Lemma update_user_absent (i : ObjectId) (f : UserRecord -> UserRecord) (db : DB) :
  user_by_id db i = None -> update_user i f db = db.
Proof.
  intros Hnone. unfold update_user. rewrite update_first_absent by exact Hnone.
  now destruct db.
Qed.

Lemma user_by_id_update_same (i : ObjectId) (f : UserRecord -> UserRecord)
    (db : DB) :
  (forall u, user_id (f u) = user_id u) ->
  user_by_id (update_user i f db) i = option_map f (user_by_id db i).
Proof.
  intros Hid. unfold user_by_id, update_user. cbn [users].
  induction (users db) as [|u us IH]; cbn; [reflexivity|].
  destruct (N.eqb (user_id u) i) eqn:Hu; cbn.
  - now rewrite Hid, Hu.
  - now rewrite Hu.
Qed.

Lemma user_by_id_update_other (i j : ObjectId) (f : UserRecord -> UserRecord)
    (db : DB) :
  (forall u, user_id (f u) = user_id u) ->
  j <> i ->
  user_by_id (update_user i f db) j = user_by_id db j.
Proof.
  intros Hid Hne. unfold user_by_id, update_user. cbn [users].
  induction (users db) as [|u us IH]; cbn; [reflexivity|].
  destruct (N.eqb (user_id u) i) eqn:Hu; cbn.
  - rewrite Hid. apply N.eqb_eq in Hu.
    destruct (N.eqb (user_id u) j) eqn:Hj; [|reflexivity].
    apply N.eqb_eq in Hj. congruence.
  - now rewrite IH.
Qed.

Lemma user_by_id_found (db : DB) (i : ObjectId) (u : UserRecord) :
  user_by_id db i = Some u -> user_id u = i /\ In u (users db).
Proof.
  intros Hu. apply find_some in Hu. destruct Hu as (Hin & Heq).
  apply N.eqb_eq in Heq. auto.
Qed.

Lemma user_by_own_id (db : DB) (u : UserRecord) :
  NoDup (map user_id (users db)) ->
  In u (users db) ->
  user_by_id db (user_id u) = Some u.
Proof.
  unfold user_by_id. induction (users db) as [|v us IH]; cbn; [intros _ []|].
  intros Hnodup Hin. inversion Hnodup as [|? ? Hnin Hrest]; subst.
  destruct Hin as [->|Hin].
  - now rewrite N.eqb_refl.
  - destruct (N.eqb (user_id v) (user_id u)) eqn:Hv; [|now apply IH].
    apply N.eqb_eq in Hv. exfalso. apply Hnin. rewrite Hv.
    now apply in_map.
Qed.

Lemma get_remove_same (k : string) (d : doc) : get k (remove k d) = None.
Proof.
  induction d as [|(k', v) d IH]; cbn; [reflexivity|].
  destruct (String.eqb k k') eqn:Hk; [exact IH|]. cbn. now rewrite Hk.
Qed.

Lemma get_remove_other (k k' : string) (d : doc) :
  k <> k' -> get k (remove k' d) = get k d.
Proof.
  intros Hne. induction d as [|(k0, v) d IH]; cbn; [reflexivity|].
  destruct (String.eqb k' k0) eqn:Hk'.
  - apply String.eqb_eq in Hk'. subst.
    apply String.eqb_neq in Hne. now rewrite Hne.
  - cbn. now rewrite IH.
Qed.

Lemma generateAccessAndRefreshTokens_run (i : ObjectId) (db : DB) :
  generateAccessAndRefreshTokens i db
  = match user_by_id db i with
    | Some u =>
        match generateAccessToken u, generateRefreshToken u with
        | Returned a, Returned r =>
            ([UserFindById; UserSave], Returned (a, r),
             update_user (user_id u) (with_refreshToken (Some r)) db)
        | _, _ => ([UserFindById], Thrown token_error, db)
        end
    | None => ([UserFindById], Thrown token_error, db)
    end.
Proof.
  unfold generateAccessAndRefreshTokens, try_catch, bindS, findById, liftS,
    save_refreshToken, retS, throwS.
  destruct (user_by_id db i) as [u|]; [|reflexivity].
  destruct (generateAccessToken u) as [a|e]; [|reflexivity].
  destruct (generateRefreshToken u) as [r|e]; reflexivity.
Qed.

(** Property X7.  Token generation is all or nothing: it throws only the 500 error, and
    then the store is as before; when it returns, the named user holds the
    returned refresh token and every other user is as before. *)
Theorem tokens_saved_or_nothing (i : ObjectId) (db db' : DB)
    (t : list Action) (res : Result (string * string)) :
  generateAccessAndRefreshTokens i db = (t, res, db') ->
  match res with
  | Thrown e => e = token_error /\ db' = db
  | Returned (a, r) =>
      exists u,
        user_by_id db i = Some u
        /\ user_by_id db' i = Some (with_refreshToken (Some r) u)
        /\ forall j, j <> i -> user_by_id db' j = user_by_id db j
  end.
Proof.
  rewrite generateAccessAndRefreshTokens_run.
  destruct (user_by_id db i) as [u|] eqn:Hu.
  - destruct (user_by_id_found db i Hu) as (Hid & _).
    destruct (generateAccessToken u) as [a|e];
      [destruct (generateRefreshToken u) as [r|e]|].
    + intros [= <- <- <-]. exists u. rewrite Hid. split; [reflexivity|].
      rewrite user_by_id_update_same, Hu by reflexivity.
      split; [reflexivity|]. intros j Hj.
      now apply user_by_id_update_other.
    + intros [= <- <- <-]. now split.
    + intros [= <- <- <-]. now split.
  - intros [= <- <- <-]. now split.
Qed.

Lemma truthy_js_or (a b : value) :
  truthy (js_or a b) = truthy a || truthy b.
Proof. unfold js_or. now destruct (truthy a) eqn:Ha; cbn; [rewrite Ha|]. Qed.

(** Property X8.  The ways [loginUser] turns a request down: with neither a username nor
    an email, the 400 error before any store call; when the lookup finds no
    user, the 404 error; when the password is not the found user's, the 401
    error.  The store is untouched in each. *)
Theorem loginUser_rejections (req : AccountRequest) (db : DB) :
  let username := assoc "username" (body req) in
  let email := assoc "email" (body req) in
  let password := assoc "password" (body req) in
  (string_truthy username = false -> string_truthy email = false ->
   loginUser_handler req db
   = ([], Thrown (ApiError 400 "username or email is required"), db))
  /\ (string_truthy username || string_truthy email = true ->
      found_by (by_username_or_email username email) db = None ->
      loginUser_handler req db
      = ([UserFindOne], Thrown (ApiError 404 "User not found"), db))
  /\ (forall u,
        string_truthy username || string_truthy email = true ->
        found_by (by_username_or_email username email) db = Some u ->
        isPasswordCorrect u password = Returned false ->
        loginUser_handler req db
        = ([UserFindOne], Thrown (ApiError 401 "Invalid user credentials"),
           db)).
Proof.
  intros username email password. subst username email password.
  unfold loginUser_handler, string_truthy. rewrite truthy_js_or.
  repeat split.
  - intros -> ->. reflexivity.
  - intros -> Hnone. cbn [negb]. unfold bindS, findOne_or. now rewrite Hnone.
  - intros u -> Hu Hpw. cbn [negb]. unfold bindS, findOne_or, liftS.
    rewrite Hu, Hpw. reflexivity.
Qed.


Lemma shown_user_fields (u : UserRecord) :
  let shown := fold_right remove (doc_of_user u) ["password"; "refreshToken"] in
  get "password" shown = None
  /\ get "refreshToken" shown = None
  /\ get "username" shown = Some (VStr (user_username u)).
Proof.
  cbn [fold_right]. split; [|split].
  - apply get_remove_same.
  - rewrite get_remove_other by discriminate. apply get_remove_same.
  - rewrite !get_remove_other by discriminate. reflexivity.
Qed.

(** Property X10.  A successful login: the found user's refresh token in the store becomes
    the one the reply carries, in its cookie and in its body, and the user
    document of the reply has neither password nor refreshToken. *)
Theorem loginUser_success (req : AccountRequest) (db : DB) (u : UserRecord)
    (a r : string) :
  let username := assoc "username" (body req) in
  let email := assoc "email" (body req) in
  string_truthy username || string_truthy email = true ->
  found_by (by_username_or_email username email) db = Some u ->
  NoDup (map user_id (users db)) ->
  isPasswordCorrect u (assoc "password" (body req)) = Returned true ->
  generateAccessToken u = Returned a ->
  generateRefreshToken u = Returned r ->
  exists (shown : doc) (db' : DB),
    loginUser_handler req db
    = ([UserFindOne; UserFindById; UserSave; UserFindById],
       Returned
         {| reply_status := 200;
            reply_cookies := [SetCookie "accessToken" (VStr a) options;
                              SetCookie "refreshToken" (VStr r) options];
            reply_json :=
              NewApiResponse (VNum 200)
                (VDoc [("user", VDoc shown); ("accessToken", VStr a);
                       ("refreshToken", VStr r)])
                (VStr "User loggedIn Succesfully") |},
       db')
    /\ user_by_id db' (user_id u) = Some (with_refreshToken (Some r) u)
    /\ (forall j, j <> user_id u -> user_by_id db' j = user_by_id db j)
    /\ get "password" shown = None
    /\ get "refreshToken" shown = None
    /\ get "username" shown = Some (VStr (user_username u)).
Proof.
  intros username email Hgiven Hfound Hnodup Hpw Ha Hr.
  subst username email.
  assert (Hu : user_by_id db (user_id u) = Some u).
  { apply user_by_own_id; [exact Hnodup|].
    apply find_some in Hfound. tauto. }
  unfold loginUser_handler, string_truthy in *. rewrite truthy_js_or, Hgiven.
  cbn [negb]. unfold bindS at 1. unfold findOne_or. rewrite Hfound.
  unfold bindS at 1. unfold liftS. rewrite Hpw. cbn [negb].
  unfold bindS at 1. rewrite generateAccessAndRefreshTokens_run, Hu, Ha, Hr.
  unfold bindS, findById, retS.
  rewrite user_by_id_update_same, Hu by reflexivity.
  cbn [option_map select_without fst snd app].
  eexists. eexists. split; [reflexivity|].
  split; [now rewrite user_by_id_update_same, Hu by reflexivity|].
  split; [intros j Hj; now apply user_by_id_update_other|].
  apply (shown_user_fields (with_refreshToken (Some r) u)).
Qed.

Lemma update_first_twice (i : ObjectId) (f : UserRecord -> UserRecord)
    (us : list UserRecord) :
  (forall u, user_id (f u) = user_id u) ->
  (forall u, f (f u) = f u) ->
  update_first i f (update_first i f us) = update_first i f us.
Proof.
  intros Hid Hidem. induction us as [|u us IH]; cbn; [reflexivity|].
  destruct (N.eqb (user_id u) i) eqn:Hu; cbn.
  - now rewrite Hid, Hu, Hidem.
  - now rewrite Hu, IH.
Qed.

(** Property X11.  Logging out removes the refresh token of the request's user from the
    store, touches no other user, and answers 200 with both cookies
    cleared; when the store has no such user it stays as it was. *)
Theorem logoutUser_clears_token (req : AccountRequest) (db : DB) (a : AuthUser) :
  auth req = Some a ->
  exists db' : DB,
    logoutUser_handler req db
    = ([UserFindByIdAndUpdate],
       Returned
         {| reply_status := 200;
            reply_cookies := [ClearCookie "accessToken" options;
                              ClearCookie "refreshToken" options];
            reply_json := NewApiResponse (VNum 200) (VDoc [])
                            (VStr "User Logged Out") |},
       db')
    /\ user_by_id db' (auth_id a)
       = option_map (with_refreshToken None) (user_by_id db (auth_id a))
    /\ (user_by_id db (auth_id a) = None -> db' = db)
    /\ (forall j, j <> auth_id a -> user_by_id db' j = user_by_id db j)
    /\ subscriptions db' = subscriptions db
    /\ videos db' = videos db
    /\ likes db' = likes db.
Proof.
  intros Ha. unfold logoutUser_handler. rewrite Ha.
  unfold bindS, findByIdAndUpdate, retS. cbn [app].
  eexists. split; [reflexivity|].
  split; [now apply user_by_id_update_same|].
  split; [now apply update_user_absent|].
  split; [intros j Hj; now apply user_by_id_update_other|].
  repeat split.
Qed.

(** Property X12.  Logging out twice is logging out once: the second run gives the same
    reply and leaves the store of the first. *)
Theorem logoutUser_idempotent (req : AccountRequest) (db db1 : DB)
    (t : list Action) (res : Result Reply) :
  logoutUser_handler req db = (t, res, db1) ->
  logoutUser_handler req db1 = (t, res, db1).
Proof.
  unfold logoutUser_handler. destruct (auth req) as [a|].
  - unfold bindS, findByIdAndUpdate, retS. cbn [app].
    intros [= <- <- <-]. f_equal. unfold update_user. cbn [users].
    now rewrite update_first_twice.
  - unfold throwS. now intros [= <- <- <-].
Qed.

Lemma refreshAccessToken_handler_run (req : AccountRequest) (db : DB)
    (tok : string) :
  incoming_token req = Some tok ->
  tok <> "" ->
  refreshAccessToken_handler req db
  = match jwt_verify tok with
    | Thrown _ => ([], Thrown (ApiError 401 "Invalid refresh Token"), db)
    | Returned decoded =>
        match match decoded with
              | Some i => user_by_id db i
              | None => None
              end with
        | None =>
            ([UserFindById], Thrown (ApiError 401 "Invalid refresh Token"), db)
        | Some u =>
            if string_eq_opt tok (user_refreshToken u)
            then
              match generateAccessToken u, generateRefreshToken u with
              | Returned a, Returned r =>
                  ([UserFindById; UserFindById; UserSave],
                   Returned
                     {| reply_status := 200;
                        reply_cookies :=
                          [SetCookie "accessToken" (VStr a) options;
                           SetCookie "refreshToken" VUndefined options];
                        reply_json :=
                          NewApiResponse (VNum 200)
                            (VDoc [("accessToken", VStr a);
                                   ("refreshToken", VUndefined)])
                            (VStr "Access token refreshed") |},
                   update_user (user_id u) (with_refreshToken (Some r)) db)
              | _, _ =>
                  ([UserFindById; UserFindById],
                   Thrown (ApiError 401 "Invalid refresh Token"), db)
              end
            else
              ([UserFindById],
               Thrown (ApiError 401 "Invalid refresh Token"), db)
        end
    end.
Proof.
  intros Htok Hne. unfold refreshAccessToken_handler. rewrite Htok.
  assert (Ht : string_truthy (Some tok) = true).
  { cbn. apply negb_true_iff. now apply String.eqb_neq. }
  rewrite Ht. cbn [negb].
  unfold try_catch, bindS at 1, liftS.
  destruct (jwt_verify tok) as [decoded|e]; [|reflexivity].
  unfold bindS at 1, findById.
  set (found := match decoded with Some i => user_by_id db i | None => None end).
  destruct found as [u|] eqn:Hfound; [|reflexivity].
  destruct (string_eq_opt tok (user_refreshToken u)); cbn [negb];
    [|reflexivity].
  unfold bindS. rewrite generateAccessAndRefreshTokens_run.
  assert (Hu : user_by_id db (user_id u) = Some u).
  { subst found. destruct decoded as [i|]; [|discriminate].
    destruct (user_by_id_found db i Hfound) as (<- & _). exact Hfound. }
  rewrite Hu.
  destruct (generateAccessToken u) as [a|e]; [|reflexivity].
  destruct (generateRefreshToken u) as [r|e]; reflexivity.
Qed.

Lemma incoming_token_cases (req : AccountRequest) :
  string_truthy (incoming_token req) = false
  \/ exists tok, incoming_token req = Some tok /\ tok <> "".
Proof.
  destruct (incoming_token req) as [tok|]; [|now left].
  destruct (String.eqb_spec tok "") as [->|Hne]; [now left|].
  right. now exists tok.
Qed.

(** Property X13.  A refresh that throws throws a 401 error, whatever went wrong (a token
    that does not verify, an unknown user, a token that is not the stored
    one, a failure while generating tokens), and leaves the store as it
    was. *)
Theorem refreshAccessToken_fails_with_401 (req : AccountRequest) (db db' : DB)
    (t : list Action) (e : Error) :
  refreshAccessToken_handler req db = (t, Thrown e, db') ->
  (exists message, e = ApiError 401 message) /\ db' = db.
Proof.
  destruct (incoming_token_cases req) as [Hfalsy|(tok & Htok & Hne)].
  - unfold refreshAccessToken_handler.
    destruct (incoming_token req) as [tok|].
    + rewrite Hfalsy. cbn [negb]. intros [= _ <- <-]. eauto.
    + intros [= _ <- <-]. eauto.
  - rewrite (refreshAccessToken_handler_run req db Htok Hne).
    destruct (jwt_verify tok) as [decoded|e0]; [|intros [= _ <- <-]; eauto].
    destruct (match decoded with Some i => user_by_id db i | None => None end)
      as [u|]; [|intros [= _ <- <-]; eauto].
    destruct (string_eq_opt tok (user_refreshToken u));
      [|intros [= _ <- <-]; eauto].
    destruct (generateAccessToken u) as [a|e1];
      [destruct (generateRefreshToken u) as [r|e1]|];
      try discriminate; intros [= _ <- <-]; eauto.
Qed.

(** Property X14.  A successful refresh rotates the stored refresh token but does not hand
    the new one out: the store holds the newly generated token, while the
    refreshToken cookie and body field of the reply are undefined. *)
Theorem refreshAccessToken_success (req : AccountRequest) (db : DB)
    (tok : string) (i : ObjectId) (u : UserRecord) (a r : string) :
  incoming_token req = Some tok ->
  tok <> "" ->
  jwt_verify tok = Returned (Some i) ->
  user_by_id db i = Some u ->
  user_refreshToken u = Some tok ->
  generateAccessToken u = Returned a ->
  generateRefreshToken u = Returned r ->
  exists db' : DB,
    refreshAccessToken_handler req db
    = ([UserFindById; UserFindById; UserSave],
       Returned
         {| reply_status := 200;
            reply_cookies := [SetCookie "accessToken" (VStr a) options;
                              SetCookie "refreshToken" VUndefined options];
            reply_json :=
              NewApiResponse (VNum 200)
                (VDoc [("accessToken", VStr a); ("refreshToken", VUndefined)])
                (VStr "Access token refreshed") |},
       db')
    /\ user_by_id db' i = Some (with_refreshToken (Some r) u)
    /\ forall j, j <> i -> user_by_id db' j = user_by_id db j.
Proof.
  intros Htok Hne Hverify Hu Hstored Ha Hr.
  rewrite (refreshAccessToken_handler_run req db Htok Hne).
  rewrite Hverify, Hu, Hstored, Ha, Hr. cbn [string_eq_opt].
  rewrite String.eqb_refl.
  destruct (user_by_id_found db i Hu) as (Hid & _). rewrite Hid.
  eexists. split; [reflexivity|]. split.
  - now rewrite user_by_id_update_same, Hu by reflexivity.
  - intros j Hj. now apply user_by_id_update_other.
Qed.

(** Property X15.  After a logout, a refresh with a token that names the logged-out user
    is turned down with the 401 error, whatever the token, and changes
    nothing. *)
Theorem refresh_after_logout (out back : AccountRequest) (db db1 : DB)
    (a : AuthUser) (t : list Action) (res : Result Reply) (tok : string) :
  auth out = Some a ->
  logoutUser_handler out db = (t, res, db1) ->
  incoming_token back = Some tok ->
  tok <> "" ->
  jwt_verify tok = Returned (Some (auth_id a)) ->
  refreshAccessToken_handler back db1
  = ([UserFindById], Thrown (ApiError 401 "Invalid refresh Token"), db1).
Proof.
  intros Ha Hout Htok Hne Hverify.
  unfold logoutUser_handler in Hout. rewrite Ha in Hout.
  unfold bindS, findByIdAndUpdate, retS in Hout. injection Hout as _ _ <-.
  rewrite (refreshAccessToken_handler_run back _ Htok Hne), Hverify.
  rewrite user_by_id_update_same by reflexivity.
  now destruct (user_by_id db (auth_id a)).
Qed.

(** Property X16.  A password change with a wrong old password is turned down with the 400
    error; and a password change that throws, for whatever reason, leaves
    the store as it was. *)
Theorem changeCurrentPassword_rejected (req : AccountRequest) (db : DB) :
  (forall a u,
     auth req = Some a ->
     user_by_id db (auth_id a) = Some u ->
     isPasswordCorrect u (assoc "oldPassword" (body req)) = Returned false ->
     changeCurrentPassword_handler req db
     = ([UserFindById], Thrown (ApiError 400 "Invalid old Password"), db))
  /\ (forall t e db',
        changeCurrentPassword_handler req db = (t, Thrown e, db') -> db' = db).
Proof.
  unfold changeCurrentPassword_handler. split.
  - intros a u Ha Hu Hpw. rewrite Ha. unfold bindS, findById, liftS.
    cbn [option_map]. now rewrite Hu, Hpw.
  - intros t e db'. unfold bindS, findById, liftS, save_password, retS, throwS.
    destruct (match option_map auth_id (auth req) with
              | Some i => user_by_id db i
              | None => None
              end) as [u|]; [|now intros [= _ _ <-]].
    destruct (isPasswordCorrect u _) as [[|]|e']; cbn [negb];
      [|now intros [= _ _ <-]|now intros [= _ _ <-]].
    destruct (password_on_save _) as [stored|e'];
      [discriminate | now intros [= _ _ <-]].
Qed.

(** Property X17.  A successful password change replaces the stored password by what
    [save] makes of the new one and nothing else: the user's refresh token
    stays, and so does every other user. *)
Theorem changeCurrentPassword_success (req : AccountRequest) (db : DB)
    (a : AuthUser) (u : UserRecord) (stored : string) :
  auth req = Some a ->
  user_by_id db (auth_id a) = Some u ->
  isPasswordCorrect u (assoc "oldPassword" (body req)) = Returned true ->
  password_on_save (assoc "newPassword" (body req)) = Returned stored ->
  exists db' : DB,
    changeCurrentPassword_handler req db
    = ([UserFindById; UserSave],
       Returned
         {| reply_status := 200;
            reply_cookies := [];
            reply_json := NewApiResponse (VNum 200) (VDoc [])
                            (VStr "Password Changed Successfully") |},
       db')
    /\ user_by_id db' (auth_id a) = Some (with_password stored u)
    /\ user_refreshToken (with_password stored u) = user_refreshToken u
    /\ forall j, j <> auth_id a -> user_by_id db' j = user_by_id db j.
Proof.
  intros Ha Hu Hpw Hsave. unfold changeCurrentPassword_handler.
  rewrite Ha. unfold bindS, findById, liftS, save_password, retS.
  cbn [option_map]. rewrite Hu, Hpw. cbn [negb]. rewrite Hsave.
  destruct (user_by_id_found db (auth_id a) Hu) as (Hid & _). rewrite Hid.
  eexists. split; [reflexivity|]. split; [|split].
  - now rewrite user_by_id_update_same, Hu by reflexivity.
  - reflexivity.
  - intros j Hj. now apply user_by_id_update_other.
Qed.

(** Property X18.  When the upload of a new avatar yields nothing, the handler throws a
    TypeError, not one of its 400 errors, after the old image has been
    deleted from Cloudinary under its public id; the store is unchanged. *)
Theorem updateUserAvatar_failed_upload (req : AccountRequest) (db : DB)
    (path image : string) (a : AuthUser) :
  file req = Some path ->
  path <> "" ->
  auth req = Some a ->
  auth_avatar a = Some image ->
  image <> "" ->
  deleteFromCloudinary (publicId_of image) = Returned tt ->
  uploadOnCloudinary (Some path) = Returned None ->
  updateUserAvatar_handler req db
  = ([CloudinaryDelete (publicId_of image); CloudinaryUpload (Some path)],
     Thrown (TypeError "Cannot read properties of null (reading 'url')"),
     db).
Proof.
  intros Hfile Hpath Ha Himage Hne Hdelete Hupload.
  unfold updateUserAvatar_handler. rewrite Hfile, Ha, Himage.
  assert (Hp : string_truthy (Some path) = true)
    by (cbn; apply negb_true_iff; now apply String.eqb_neq).
  assert (Hi : string_truthy (Some image) = true)
    by (cbn; apply negb_true_iff; now apply String.eqb_neq).
  rewrite Hp, Hi. cbn [negb]. unfold bindS, call.
  now rewrite Hdelete, Hupload.
Qed.

Lemma select_without_password (u : UserRecord) :
  let shown := fold_right remove (doc_of_user u) ["password"] in
  get "password" shown = None
  /\ get "refreshToken" shown = option_map VStr (user_refreshToken u)
  /\ get "avatar" shown = Some (VStr (user_avatar u))
  /\ get "coverImage" shown = option_map VStr (user_coverImage u).
Proof.
  cbn [fold_right]. split; [apply get_remove_same|].
  rewrite !get_remove_other by discriminate. unfold doc_of_user.
  now destruct (user_coverImage u), (user_refreshToken u).
Qed.

(** Property X19.  A successful avatar update deletes the old image under its public id,
    uploads the new file, and stores the uploaded URL as the user's avatar,
    changing nothing else of the user; the user document of the reply leaves
    out the password but still carries the refresh token the user has. *)
Theorem updateUserAvatar_success (req : AccountRequest) (db : DB)
    (path image link : string) (a : AuthUser) (u : UserRecord) :
  file req = Some path ->
  path <> "" ->
  auth req = Some a ->
  auth_avatar a = Some image ->
  image <> "" ->
  deleteFromCloudinary (publicId_of image) = Returned tt ->
  uploadOnCloudinary (Some path) = Returned (Some {| url := Some link |}) ->
  link <> "" ->
  user_by_id db (auth_id a) = Some u ->
  exists (shown : doc) (db' : DB),
    updateUserAvatar_handler req db
    = ([CloudinaryDelete (publicId_of image); CloudinaryUpload (Some path);
        UserFindByIdAndUpdate],
       Returned
         {| reply_status := 200;
            reply_cookies := [];
            reply_json := NewApiResponse (VNum 200) (VDoc shown)
                            (VStr "Avatar Image updated successfully") |},
       db')
    /\ user_by_id db' (auth_id a) = Some (with_avatar link u)
    /\ (forall j, j <> auth_id a -> user_by_id db' j = user_by_id db j)
    /\ get "avatar" shown = Some (VStr link)
    /\ get "password" shown = None
    /\ get "refreshToken" shown = option_map VStr (user_refreshToken u).
Proof.
  intros Hfile Hpath Ha Himage Hne Hdelete Hupload Hlink Hu.
  unfold updateUserAvatar_handler. rewrite Hfile, Ha, Himage.
  assert (Hp : string_truthy (Some path) = true)
    by (cbn; apply negb_true_iff; now apply String.eqb_neq).
  assert (Hi : string_truthy (Some image) = true)
    by (cbn; apply negb_true_iff; now apply String.eqb_neq).
  assert (Hl : string_truthy (Some link) = true)
    by (cbn; apply negb_true_iff; now apply String.eqb_neq).
  rewrite Hp, Hi. cbn [negb].
  unfold bindS, call, retS, findByIdAndUpdate. rewrite Hdelete, Hupload.
  cbn [url]. rewrite Hl. cbn [negb option_map].
  rewrite Hu. cbn [option_map select_without app].
  eexists. eexists. split; [reflexivity|].
  split; [now rewrite user_by_id_update_same, Hu by reflexivity|].
  split; [intros j Hj; now apply user_by_id_update_other|].
  destruct (select_without_password (with_avatar link u)) as (Hpw & Hrt & Hav & _).
  auto.
Qed.

(** Property X20.  A successful cover image update stores the uploaded URL as the user's
    cover image, keeps the avatar, and never asks Cloudinary to delete the
    image it replaces. *)
Theorem updateUserCoverImage_success (req : AccountRequest) (db : DB)
    (path link : string) (a : AuthUser) (u : UserRecord) :
  file req = Some path ->
  path <> "" ->
  auth req = Some a ->
  uploadOnCloudinary (Some path) = Returned (Some {| url := Some link |}) ->
  link <> "" ->
  user_by_id db (auth_id a) = Some u ->
  exists (shown : doc) (db' : DB),
    updateUserCoverImage_handler req db
    = ([CloudinaryUpload (Some path); UserFindByIdAndUpdate],
       Returned
         {| reply_status := 200;
            reply_cookies := [];
            reply_json := NewApiResponse (VNum 200) (VDoc shown)
                            (VStr "Cover Image updated successfully") |},
       db')
    /\ user_by_id db' (auth_id a) = Some (with_coverImage link u)
    /\ (forall j, j <> auth_id a -> user_by_id db' j = user_by_id db j)
    /\ get "coverImage" shown = Some (VStr link)
    /\ get "avatar" shown = Some (VStr (user_avatar u))
    /\ get "password" shown = None.
Proof.
  intros Hfile Hpath Ha Hupload Hlink Hu.
  unfold updateUserCoverImage_handler. rewrite Hfile, Ha.
  assert (Hp : string_truthy (Some path) = true)
    by (cbn; apply negb_true_iff; now apply String.eqb_neq).
  assert (Hl : string_truthy (Some link) = true)
    by (cbn; apply negb_true_iff; now apply String.eqb_neq).
  rewrite Hp. cbn [negb].
  unfold bindS, call, retS, findByIdAndUpdate. rewrite Hupload.
  cbn [url]. rewrite Hl. cbn [negb option_map].
  rewrite Hu. cbn [option_map select_without app].
  eexists. eexists. split; [reflexivity|].
  split; [now rewrite user_by_id_update_same, Hu by reflexivity|].
  split; [intros j Hj; now apply user_by_id_update_other|].
  destruct (select_without_password (with_coverImage link u))
    as (Hpw & _ & Hav & Hcover).
  auto.
Qed.

Lemma found_by_username_or_email (db : DB) (username email : option string)
    (u : UserRecord) :
  In u (users db) ->
  username = Some (user_username u) \/ email = Some (user_email u) ->
  found_by (by_username_or_email username email) db <> None.
Proof.
  intros Hin Hmatch Hnone. unfold found_by in Hnone.
  apply (find_none _ _ Hnone) in Hin.
  apply Bool.not_true_iff_false in Hin. apply Hin. clear Hin Hnone.
  unfold by_username_or_email, sent_conditions.
  destruct Hmatch as [->| ->]; cbn [existsb js_str].
  - apply orb_true_iff. left.
    destruct dropsUndefined; cbn; now rewrite String.eqb_refl.
  - apply orb_true_iff. right. apply orb_true_iff. left.
    destruct dropsUndefined; cbn; now rewrite String.eqb_refl.
Qed.

(** Property X21.  Registration is turned down with "All fields are required", before any
    store call or upload, exactly when one of fullName, email, username and
    password is present and blank after trimming; a field that is absent
    does not trigger it. *)
Theorem registerUser_blank_field (req : AccountRequest) (db : DB) :
  registerUser_handler req db
  = ([], Thrown (ApiError 400 "All fields are required"), db)
  <-> exists k s,
        In k ["fullName"; "email"; "username"; "password"]
        /\ assoc k (body req) = Some s /\ trim s = "".
Proof.
  unfold registerUser_handler.
  destruct (existsb blank_field _) eqn:Hblank.
  - split; [intros _|reflexivity].
    apply existsb_exists in Hblank. destruct Hblank as (field & Hin & Hb).
    destruct field as [s|]; [|discriminate]. cbn in Hb.
    apply String.eqb_eq in Hb.
    destruct Hin as [Hk|[Hk|[Hk|[Hk|[]]]]];
      [exists "fullName" | exists "email" | exists "username"
       | exists "password"];
      exists s; cbn; auto 10.
  - split.
    + unfold bindS, findOne_or.
      destruct (found_by _ db); [discriminate|].
      destruct (files req) as [fs|];
        [destruct (files_avatar fs) as [paths|]|]; cbn; try discriminate.
      * destruct (negb _); [discriminate|].
        destruct (uploadOnCloudinary (hd_error paths)) as [x|];
          [|discriminate].
        destruct (uploadOnCloudinary _) as [y|]; [|discriminate].
        destruct x; [|discriminate].
        destruct (assoc "username" (body req)); [|discriminate].
        destruct (createUser _ _) as [(db1, i)|]; [|discriminate].
        cbn. destruct (user_by_id db1 i); discriminate.
    + intros (k & s & Hin & Hs & Hb). exfalso.
      apply Bool.not_true_iff_false in Hblank. apply Hblank.
      apply existsb_exists. exists (Some s). split.
      * cbn in Hin |- *.
        destruct Hin as [<-|[<-|[<-|[<-|[]]]]]; rewrite Hs; auto.
      * cbn. now apply String.eqb_eq.
Qed.

(** Property X22.  Registration with the exact username or the exact email of a stored
    user is turned down with the 409 error after the one lookup: nothing is
    uploaded and no user is created. *)
Theorem registerUser_existing_user (req : AccountRequest) (db : DB)
    (u : UserRecord) :
  existsb blank_field [assoc "fullName" (body req); assoc "email" (body req);
                       assoc "username" (body req);
                       assoc "password" (body req)] = false ->
  In u (users db) ->
  assoc "username" (body req) = Some (user_username u)
  \/ assoc "email" (body req) = Some (user_email u) ->
  registerUser_handler req db
  = ([UserFindOne],
     Thrown (ApiError 409 "User with email or username already exists"), db).
Proof.
  intros Hblank Hin Hmatch. unfold registerUser_handler. rewrite Hblank.
  unfold bindS, findOne_or.
  pose proof (found_by_username_or_email _ _ Hin Hmatch) as Hfound.
  now destruct (found_by _ db).
Qed.

(** Property X23.  Registration without an avatar file (no files at all, or an empty
    avatar field) is turned down with "Avatar File is required" after the
    lookup and before any upload; no user is created. *)
Theorem registerUser_without_avatar (req : AccountRequest) (db : DB) :
  existsb blank_field [assoc "fullName" (body req); assoc "email" (body req);
                       assoc "username" (body req);
                       assoc "password" (body req)] = false ->
  found_by (by_username_or_email (assoc "username" (body req))
                                 (assoc "email" (body req))) db = None ->
  files req = None
  \/ (exists fs, files req = Some fs /\ files_avatar fs = Some []) ->
  registerUser_handler req db
  = ([UserFindOne], Thrown (ApiError 400 "Avatar File is required"), db).
Proof.
  intros Hblank Hnone Hfiles. unfold registerUser_handler. rewrite Hblank.
  unfold bindS at 1. unfold findOne_or. rewrite Hnone.
  destruct Hfiles as [->|(fs & -> & ->)]; reflexivity.
Qed.

(** Property X24.  The field check lets an absent username through: with the other fields
    given, no such user stored, and both uploads done, the handler throws a
    TypeError on the missing username, after the uploads and without
    creating a user. *)
Theorem registerUser_absent_username (req : AccountRequest) (db : DB)
    (fs : Files) (path : string) (rest : list string) (a : Uploaded)
    (c : option Uploaded) :
  assoc "username" (body req) = None ->
  existsb blank_field [assoc "fullName" (body req); assoc "email" (body req);
                       None; assoc "password" (body req)] = false ->
  found_by (by_username_or_email None (assoc "email" (body req))) db = None ->
  files req = Some fs ->
  files_avatar fs = Some (path :: rest) ->
  path <> "" ->
  files_coverImage fs = None ->
  uploadOnCloudinary (Some path) = Returned (Some a) ->
  uploadOnCloudinary None = Returned c ->
  registerUser_handler req db
  = ([UserFindOne; CloudinaryUpload (Some path); CloudinaryUpload None],
     Thrown (TypeError
               "Cannot read properties of undefined (reading 'toLowerCase')"),
     db).
Proof.
  intros Hname Hblank Hnone Hfiles Havatar Hpath Hcover Hup Hupc.
  unfold registerUser_handler. rewrite Hname, Hblank.
  unfold bindS at 1. unfold findOne_or. rewrite Hnone, Hfiles, Havatar, Hcover.
  assert (Hp : string_truthy (Some path) = true)
    by (cbn; apply negb_true_iff; now apply String.eqb_neq).
  unfold bindS, retS, call. cbn [hd_error]. rewrite Hp. cbn [negb].
  rewrite Hup, Hupc. reflexivity.
Qed.

(** Property X25.  A successful registration creates the user under the lower-cased
    username, with the uploaded avatar URL, and replies 201 with the created
    user's document without its password and refresh token. *)
Theorem registerUser_success (req : AccountRequest) (db db1 : DB)
    (name path : string) (rest : list string) (fs : Files) (a : Uploaded)
    (i : ObjectId) (created : UserRecord) :
  existsb blank_field [assoc "fullName" (body req); assoc "email" (body req);
                       Some name; assoc "password" (body req)] = false ->
  assoc "username" (body req) = Some name ->
  found_by (by_username_or_email (Some name) (assoc "email" (body req))) db
    = None ->
  files req = Some fs ->
  files_avatar fs = Some (path :: rest) ->
  path <> "" ->
  files_coverImage fs = None ->
  uploadOnCloudinary (Some path) = Returned (Some a) ->
  uploadOnCloudinary None = Returned None ->
  createUser db {| new_fullName := assoc "fullName" (body req);
                   new_avatar := url a;
                   new_coverImage := "";
                   new_email := assoc "email" (body req);
                   new_password := assoc "password" (body req);
                   new_username := toLowerCase name |}
    = Returned (db1, i) ->
  user_by_id db1 i = Some created ->
  exists shown : doc,
    registerUser_handler req db
    = ([UserFindOne; CloudinaryUpload (Some path); CloudinaryUpload None;
        UserCreate; UserFindById],
       Returned
         {| reply_status := 201;
            reply_cookies := [];
            reply_json := NewApiResponse (VNum 200) (VDoc shown)
                            (VStr "User Registered Successfully") |},
       db1)
    /\ get "password" shown = None
    /\ get "refreshToken" shown = None
    /\ get "username" shown = Some (VStr (user_username created)).
Proof.
  intros Hblank Hname Hnone Hfiles Havatar Hpath Hcover Hup Hupc Hcreate Hmade.
  unfold registerUser_handler. rewrite Hname, Hblank.
  unfold bindS at 1. unfold findOne_or. rewrite Hnone, Hfiles, Havatar, Hcover.
  assert (Hp : string_truthy (Some path) = true)
    by (cbn; apply negb_true_iff; now apply String.eqb_neq).
  unfold bindS, retS, call, findById. cbn [hd_error]. rewrite Hp. cbn [negb].
  rewrite Hup, Hupc, Hcreate, Hmade. cbn [select_without app].
  eexists. split; [reflexivity|]. apply shown_user_fields.
Qed.

End AccountProperties.

(** ** The further properties on the small store *)

Lemma channel_profile_case_insensitive_witness :
  @getUserChannelProfile_handler lib0
     (a_request [("username", "Alice")] [] None) example_db
  = @getUserChannelProfile_handler lib0
      (a_request [("username", "ALICE")] [] None) example_db.
Proof.
  apply (channel_profile_case_insensitive (lib := lib0)
           (a_request [("username", "Alice")] [] None)
           (a_request [("username", "ALICE")] [] None)
           example_db (n1 := "Alice") (n2 := "ALICE"));
    try reflexivity; vm_compute; discriminate.
Defined.


Lemma channel_videos_at_most_limit_witness :
  exists found : list value,
    third_of (@getChannelVideos_handler (ascii_library true)
                (a_request [("channelId", bob_id)]
                           [("page", 1); ("limit", 5)] None)
                seven_videos_db)
      = Some (VArr found)
    /\ Z.of_nat (List.length found) <= 5.
Proof.
  destruct (channel_videos_at_most_limit (lib := ascii_library true)
              (a_request [("channelId", bob_id)]
                         [("page", 1); ("limit", 5)] None)
              seven_videos_db
              (t := [Find "Video"])
              (r := {| status := 200;
                       json := NewApiResponse (VNum 200)
                                 (VStr "Channel videos fetched successfully")
                                 (VArr (map VDoc (map doc_of_video
                                    [a_video 48 3 0 800; a_video 47 2 0 700;
                                     a_video 46 2 0 600; a_video 45 2 0 500;
                                     a_video 44 2 0 400]))) |})
              eq_refl eq_refl)
    as (found & Hjson & Hlen).
  exists found. split; [|exact Hlen].
  cbn in Hjson. injection Hjson as <-. reflexivity.
Defined.

Lemma watch_history_no_repeats_witness :
  exists entries : list doc,
    second_of (@getWatchHistory_handler lib0 (a_request [] [] (Some 5%N))
                 rewatch_db)
      = Some (VArr (map VDoc entries))
    /\ NoDup (field_values "_id" entries).
Proof.
  destruct (watch_history_no_repeats (lib := lib0)
              (a_request [] [] (Some 5%N)) rewatch_db (uid := 5%N) eq_refl)
    as (entries & Hrun & Hnodup & _).
  - repeat constructor; cbn; intuition discriminate.
  - exists entries. split; assumption.
Defined.

Lemma publicId_of_url_witness :
  publicId_of "http://res.cloudinary.com/demo/image/upload/v1/sample.png"
  = "sample".
Proof.
  apply (publicId_of_url "http://res.cloudinary.com/demo/image/upload/v1"
                         "sample" "png");
    reflexivity.
Defined.

Lemma tokens_saved_or_nothing_witness :
  user_by_id (update_user 1 (with_refreshToken (Some "refresh:alice"))
                          example_db) 1
  = Some (with_refreshToken (Some "refresh:alice") alice).
Proof.
  destruct (tokens_saved_or_nothing (svc := svc_up) 1 example_db
              (db' := update_user 1 (with_refreshToken (Some "refresh:alice"))
                                  example_db)
              (t := [UserFindById; UserSave])
              (res := Returned ("access:alice", "refresh:alice")) eq_refl)
    as (u & Hu & Hsaved & _).
  cbn in Hu. injection Hu as <-. exact Hsaved.
Defined.

Lemma loginUser_rejections_witness :
  loginUser_handler (lib := lib0) (svc := svc_up)
    (an_account_request [("password", "secret")] [] None None None) example_db
  = ([], Thrown (ApiError 400 "username or email is required"), example_db)
  /\ loginUser_handler (lib := lib0) (svc := svc_up)
       (an_account_request [("username", "nobody")] [] None None None)
       example_db
     = ([UserFindOne], Thrown (ApiError 404 "User not found"), example_db)
  /\ loginUser_handler (lib := lib0) (svc := svc_up)
       (an_account_request [("email", "bob"); ("password", "guess")] []
                           None None None)
       example_db
     = ([UserFindOne], Thrown (ApiError 401 "Invalid user credentials"),
        example_db).
Proof.
  split; [|split].
  - apply (proj1 (loginUser_rejections (lib := lib0) (svc := svc_up)
                    (an_account_request [("password", "secret")] []
                                        None None None)
                    example_db));
      reflexivity.
  - apply (proj1 (proj2 (loginUser_rejections (lib := lib0) (svc := svc_up)
                           (an_account_request [("username", "nobody")] []
                                               None None None)
                           example_db)));
      reflexivity.
  - apply (proj2 (proj2 (loginUser_rejections (lib := lib0) (svc := svc_up)
                           (an_account_request
                              [("email", "bob"); ("password", "guess")] []
                              None None None)
                           example_db)) bob);
      reflexivity.
Defined.


Lemma loginUser_success_witness :
  user_by_id
    (snd (loginUser_handler (lib := lib0) (svc := svc_up)
            (an_account_request
               [("username", "alice"); ("password", "$2b$10$hash")] []
               None None None)
            example_db)) 1
  = Some (with_refreshToken (Some "refresh:alice") alice).
Proof.
  assert (Hnodup : NoDup (map user_id (users example_db)))
    by (repeat constructor; cbn; intuition discriminate).
  destruct (loginUser_success (lib := lib0) (svc := svc_up)
              (an_account_request
                 [("username", "alice"); ("password", "$2b$10$hash")] []
                 None None None)
              example_db (u := alice) (a := "access:alice")
              (r := "refresh:alice") eq_refl eq_refl Hnodup eq_refl eq_refl
              eq_refl)
    as (shown & db' & Hrun & Hstored & _).
  rewrite Hrun. exact Hstored.
Defined.

Lemma logoutUser_clears_token_witness :
  user_by_id
    (snd (logoutUser_handler
            (an_account_request [] [] (Some as_alice) None None) example_db))
    1
  = Some (with_refreshToken None alice).
Proof.
  destruct (logoutUser_clears_token
              (an_account_request [] [] (Some as_alice) None None) example_db
              (a := as_alice) eq_refl)
    as (db' & Hrun & Hcleared & _).
  rewrite Hrun. exact Hcleared.
Defined.

Lemma logoutUser_idempotent_witness :
  let req := an_account_request [] [] (Some as_alice) None None in
  logoutUser_handler req (snd (logoutUser_handler req example_db))
  = logoutUser_handler req example_db.
Proof.
  intros req.
  apply (logoutUser_idempotent req example_db
           (db1 := snd (logoutUser_handler req example_db))
           (t := fst (fst (logoutUser_handler req example_db)))
           (res := snd (fst (logoutUser_handler req example_db)))).
  reflexivity.
Defined.

Lemma refreshAccessToken_fails_with_401_witness :
  exists message,
    snd (fst (refreshAccessToken_handler (svc := svc_up)
                (an_account_request [] [("refreshToken", "bogus")]
                                    None None None)
                example_db))
    = Thrown (ApiError 401 message).
Proof.
  destruct (refreshAccessToken_fails_with_401 (svc := svc_up)
              (an_account_request [] [("refreshToken", "bogus")]
                                  None None None)
              example_db (db' := example_db) (t := [])
              (e := ApiError 401 "Invalid refresh Token") eq_refl)
    as ((message & Hmessage) & _).
  exists message. rewrite <- Hmessage. reflexivity.
Defined.

Lemma refreshAccessToken_success_witness :
  user_by_id
    (snd (refreshAccessToken_handler (svc := svc_up)
            (an_account_request [] [("refreshToken", "token")] None None None)
            example_db)) 1
  = Some (with_refreshToken (Some "refresh:alice") alice).
Proof.
  assert (Htoken : "token" <> "") by discriminate.
  destruct (refreshAccessToken_success (svc := svc_up)
              (an_account_request [] [("refreshToken", "token")]
                                  None None None)
              example_db (tok := "token") (i := 1%N) (u := alice)
              (a := "access:alice") (r := "refresh:alice")
              eq_refl Htoken eq_refl eq_refl eq_refl eq_refl eq_refl)
    as (db' & Hrun & Hstored & _).
  rewrite Hrun. exact Hstored.
Defined.

Lemma refresh_after_logout_witness :
  let db1 := snd (logoutUser_handler
                    (an_account_request [] [] (Some as_alice) None None)
                    example_db) in
  refreshAccessToken_handler (svc := svc_up)
    (an_account_request [] [("refreshToken", "token")] None None None) db1
  = ([UserFindById], Thrown (ApiError 401 "Invalid refresh Token"), db1).
Proof.
  intros db1.
  apply (refresh_after_logout (svc := svc_up)
           (an_account_request [] [] (Some as_alice) None None)
           (an_account_request [] [("refreshToken", "token")] None None None)
           example_db (db1 := db1) (a := as_alice)
           (t := [UserFindByIdAndUpdate])
           (res := snd (fst (logoutUser_handler
                               (an_account_request [] [] (Some as_alice)
                                                   None None)
                               example_db)))
           (tok := "token"));
    try reflexivity; discriminate.
Defined.

Lemma changeCurrentPassword_rejected_witness :
  let req := an_account_request
               [("oldPassword", "guess"); ("newPassword", "new")] []
               (Some as_alice) None None in
  changeCurrentPassword_handler (svc := svc_up) req example_db
  = ([UserFindById], Thrown (ApiError 400 "Invalid old Password"), example_db)
  /\ snd (changeCurrentPassword_handler (svc := svc_up) req example_db)
     = example_db.
Proof.
  intros req. split.
  - apply (proj1 (changeCurrentPassword_rejected (svc := svc_up) req
                    example_db) as_alice alice);
      reflexivity.
  - apply (proj2 (changeCurrentPassword_rejected (svc := svc_up) req
                    example_db)
                 [UserFindById] (ApiError 400 "Invalid old Password")).
    reflexivity.
Defined.

Lemma changeCurrentPassword_success_witness :
  user_by_id
    (snd (changeCurrentPassword_handler (svc := svc_up)
            (an_account_request
               [("oldPassword", "$2b$10$hash"); ("newPassword", "new")] []
               (Some as_alice) None None)
            example_db)) 1
  = Some (with_password "hashed:new" alice).
Proof.
  destruct (changeCurrentPassword_success (svc := svc_up)
              (an_account_request
                 [("oldPassword", "$2b$10$hash"); ("newPassword", "new")] []
                 (Some as_alice) None None)
              example_db (a := as_alice) (u := alice) (stored := "hashed:new")
              eq_refl eq_refl eq_refl eq_refl)
    as (db' & Hrun & Hstored & _).
  rewrite Hrun. exact Hstored.
Defined.

Lemma updateUserAvatar_failed_upload_witness :
  updateUserAvatar_handler (svc := svc_down)
    (an_account_request [] [] (Some as_alice) (Some "tmp/new.png") None)
    example_db
  = ([CloudinaryDelete "old"; CloudinaryUpload (Some "tmp/new.png")],
     Thrown (TypeError "Cannot read properties of null (reading 'url')"),
     example_db).
Proof.
  apply (updateUserAvatar_failed_upload (svc := svc_down)
           (an_account_request [] [] (Some as_alice) (Some "tmp/new.png") None)
           example_db (path := "tmp/new.png")
           (image := "http://cdn/images/old.png") (a := as_alice));
    try reflexivity; discriminate.
Defined.

Lemma updateUserAvatar_success_witness :
  user_by_id
    (snd (updateUserAvatar_handler (svc := svc_up)
            (an_account_request [] [] (Some as_alice) (Some "tmp/new.png")
                                None)
            example_db)) 1
  = Some (with_avatar "cdn/tmp/new.png" alice).
Proof.
  assert (Hpath : "tmp/new.png" <> "") by discriminate.
  assert (Himage : "http://cdn/images/old.png" <> "") by discriminate.
  assert (Hlink : "cdn/tmp/new.png" <> "") by discriminate.
  destruct (updateUserAvatar_success (svc := svc_up)
              (an_account_request [] [] (Some as_alice) (Some "tmp/new.png")
                                  None)
              example_db (path := "tmp/new.png")
              (image := "http://cdn/images/old.png")
              (link := "cdn/tmp/new.png") (a := as_alice) (u := alice)
              eq_refl Hpath eq_refl eq_refl Himage eq_refl eq_refl Hlink
              eq_refl)
    as (shown & db' & Hrun & Hstored & _).
  rewrite Hrun. exact Hstored.
Defined.

Lemma updateUserCoverImage_success_witness :
  user_by_id
    (snd (updateUserCoverImage_handler (svc := svc_up)
            (an_account_request [] [] (Some as_bob) (Some "tmp/c.png") None)
            example_db)) 2
  = Some (with_coverImage "cdn/tmp/c.png" bob).
Proof.
  assert (Hpath : "tmp/c.png" <> "") by discriminate.
  assert (Hlink : "cdn/tmp/c.png" <> "") by discriminate.
  destruct (updateUserCoverImage_success (svc := svc_up)
              (an_account_request [] [] (Some as_bob) (Some "tmp/c.png") None)
              example_db (path := "tmp/c.png") (link := "cdn/tmp/c.png")
              (a := as_bob) (u := bob) eq_refl Hpath eq_refl eq_refl Hlink
              eq_refl)
    as (shown & db' & Hrun & Hstored & _).
  rewrite Hrun. exact Hstored.
Defined.

Lemma registerUser_blank_field_witness :
  registerUser_handler (lib := lib0) (svc := svc_up)
    (an_account_request [("fullName", "Dave"); ("username", "  ")] []
                        None None None)
    example_db
  = ([], Thrown (ApiError 400 "All fields are required"), example_db).
Proof.
  apply (proj2 (registerUser_blank_field (lib := lib0) (svc := svc_up)
                  (an_account_request
                     [("fullName", "Dave"); ("username", "  ")] []
                     None None None)
                  example_db)).
  exists "username", "  ". cbn. auto.
Defined.

Lemma registerUser_existing_user_witness :
  registerUser_handler (lib := lib0) (svc := svc_up)
    (an_account_request
       [("fullName", "Al"); ("email", "al@x"); ("username", "alice");
        ("password", "pw")] [] None None (Some one_avatar))
    example_db
  = ([UserFindOne],
     Thrown (ApiError 409 "User with email or username already exists"),
     example_db).
Proof.
  apply (registerUser_existing_user (lib := lib0) (svc := svc_up)
           (an_account_request
              [("fullName", "Al"); ("email", "al@x"); ("username", "alice");
               ("password", "pw")] [] None None (Some one_avatar))
           example_db alice).
  - reflexivity.
  - now left.
  - now left.
Defined.

Lemma registerUser_without_avatar_witness :
  registerUser_handler (lib := lib0) (svc := svc_up)
    (an_account_request dave_fields [] None None None) example_db
  = ([UserFindOne], Thrown (ApiError 400 "Avatar File is required"),
     example_db).
Proof.
  apply (registerUser_without_avatar (lib := lib0) (svc := svc_up)
           (an_account_request dave_fields [] None None None) example_db).
  - reflexivity.
  - reflexivity.
  - now left.
Defined.

Lemma registerUser_absent_username_witness :
  registerUser_handler (lib := lib0) (svc := svc_up)
    (an_account_request
       [("fullName", "Dave"); ("email", "dave@x"); ("password", "pw")] []
       None None (Some one_avatar))
    example_db
  = ([UserFindOne; CloudinaryUpload (Some "tmp/a.png"); CloudinaryUpload None],
     Thrown (TypeError
               "Cannot read properties of undefined (reading 'toLowerCase')"),
     example_db).
Proof.
  apply (registerUser_absent_username (lib := lib0) (svc := svc_up)
           (an_account_request
              [("fullName", "Dave"); ("email", "dave@x"); ("password", "pw")]
              [] None None (Some one_avatar))
           example_db (fs := one_avatar) (path := "tmp/a.png") (rest := [])
           (a := {| url := Some "cdn/tmp/a.png" |}) (c := None));
    try reflexivity; discriminate.
Defined.

Lemma registerUser_success_witness :
  exists shown : doc,
    snd (fst (registerUser_handler (lib := lib0) (svc := svc_up)
                (an_account_request dave_fields [] None None
                                    (Some one_avatar))
                example_db))
    = Returned
        {| reply_status := 201;
           reply_cookies := [];
           reply_json := NewApiResponse (VNum 200) (VDoc shown)
                           (VStr "User Registered Successfully") |}
    /\ get "password" shown = None
    /\ get "username" shown = Some (VStr "dave").
Proof.
  assert (Hpath : "tmp/a.png" <> "") by discriminate.
  destruct (registerUser_success (lib := lib0) (svc := svc_up)
              (an_account_request dave_fields [] None None (Some one_avatar))
              example_db
              (db1 := appended_user example_db
                        {| new_fullName := Some "Dave";
                           new_avatar := Some "cdn/tmp/a.png";
                           new_coverImage := "";
                           new_email := Some "dave@x";
                           new_password := Some "pw";
                           new_username := "dave" |})
              (name := "Dave") (path := "tmp/a.png") (rest := [])
              (fs := one_avatar) (a := {| url := Some "cdn/tmp/a.png" |})
              (i := 100%N)
              (created := {| user_id := 100;
                             user_username := "dave";
                             user_email := "dave@x";
                             user_fullName := "Dave";
                             user_password := "pw";
                             user_avatar := "cdn/tmp/a.png";
                             user_coverImage := Some "";
                             user_refreshToken := None;
                             user_watchHistory := [] |})
              eq_refl eq_refl eq_refl eq_refl eq_refl Hpath eq_refl eq_refl
              eq_refl eq_refl eq_refl)
    as (shown & Hrun & Hpw & _ & Hname).
  exists shown. rewrite Hrun. repeat split; assumption.
Defined.

